(** * Android container platform: lifecycle manager and network isolator

    A shallow embedding of the port pools and sandbox creation of
    [services/lifecycle-manager/redroid_manager.py], of the instance
    endpoints and health sweep of [services/lifecycle-manager/main.py]
    (with the part of [container_orchestrator.py] they call) and of the
    namespace handling of [services/network-manager/network_isolator.py].

    Python dictionaries and sets are [gmap]s and [gset]s, exceptions are
    values of an error monad, and everything outside the Python process
    (the random generator, the Docker daemon, the external commands, the
    clock) is an explicit argument or an explicit component of the state. *)

From Stdlib Require Import ZArith Ascii.
From stdpp Require Import base option list strings pretty gmap.

Set Warnings "-clear-no-such-hyp,-level-tolerance".
Open Scope Z_scope.
Open Scope string_scope.

(** ** Python exceptions and the error monad *)

Inductive exn_class :=
  | PyException | PyValueError | PyKeyError | PyUnboundLocalError
  | PyAttributeError | PyCalledProcessError | PyOSError | PyHTTPException.

(** An exception object: its class and the text [str(e)] returns. *)
Record exn := mkExn { exn_class_of : exn_class; exn_str : string }.

Inductive result (A : Type) :=
  | Ok (a : A)
  | Raise (e : exn).
Arguments Ok {A} a.
Arguments Raise {A} e.

(** Sequencing: the first exception raised aborts what follows.  With
    these instances the monadic notation [x ← m; k] is available. *)
#[global] Instance result_ret : MRet result := λ A a, Ok a.
#[global] Instance result_bind : MBind result := λ A B k r,
  match r with
  | Ok a => k a
  | Raise e => Raise e
  end.

Definition is_ok {A} (r : result A) : bool :=
  match r with Ok _ => true | Raise _ => false end.

(** [range(lo, hi)] on integers. *)
Definition py_range (lo hi : Z) : list Z :=
  (λ i : nat, lo + Z.of_nat i) <$> seq 0 (Z.to_nat (hi - lo)).

(** ** The Docker daemon, as far as the services look at it *)

(** A container as the daemon records it: [attrs["HostConfig"]["PortBindings"]]
    is kept as the list of (container port, host port) pairs. *)
Record container := mkContainer {
  c_name : string;
  c_image : string;
  c_status : string;
  c_port_bindings : list (string * Z);
  c_network_mode : option string
}.

(** ** The port pools of [RedroidManager] *)

Module RedroidManager.

(** The two dictionaries of [__init__]: [port_pool] never changes,
    [used_ports] is the mutable state. *)
Definition port_pool : gmap string (gset Z) :=
  <["vnc" := list_to_set (py_range 5900 6000)]>
  (<["adb" := list_to_set (py_range 5555 5655)]> ∅).

Definition init_used_ports : gmap string (gset Z) :=
  <["vnc" := ∅]> (<["adb" := ∅]> ∅).

(** [d[k]] on a dictionary raises [KeyError] on a missing key. *)
Definition getitem {V} (d : gmap string V) (k : string) : result V :=
  match d !! k with
  | Some v => Ok v
  | None => Raise (mkExn PyKeyError ("'" ++ k ++ "'"))
  end.

(** [random.choice(seq)]: the element at an index the generator draws
    below [len(seq)]; [rng] is the generator's draw.  The order in which
    [list(...)] enumerates a set is unspecified in Python, here it is the
    order of [elements]. *)
Definition random_choice (rng : nat) (l : list Z) : option Z :=
  l !! (rng mod length l)%nat.

(** [_allocate_port(port_type)] *)
Definition _allocate_port (rng : nat) (port_type : string)
    (used_ports : gmap string (gset Z)) : result (Z * gmap string (gset Z)) :=
  pool ← getitem port_pool port_type ;
  used ← getitem used_ports port_type ;
  let available_ports := pool ∖ used in
  match random_choice rng (elements available_ports) with
  | None => Raise (mkExn PyException ("No available " ++ port_type ++ " ports"))
  | Some port => Ok (port, <[port_type := {[port]} ∪ used]> used_ports)
  end.

(** [_release_port(port, port_type)] *)
Definition _release_port (port : Z) (port_type : string)
    (used_ports : gmap string (gset Z)) : result (gmap string (gset Z)) :=
  used ← getitem used_ports port_type ;
  Ok (<[port_type := used ∖ {[port]}]> used_ports).

(** The body of the innermost loop of [_setup_port_pools], for one host
    port found on an existing container.  Both keys are always present; a
    missing key would abort the loop and change nothing. *)
Definition setup_host_port (host_port : Z)
    (used_ports : gmap string (gset Z)) : gmap string (gset Z) :=
  if decide (5900 ≤ host_port < 6000) then
    match used_ports !! "vnc" with
    | Some used => <["vnc" := {[host_port]} ∪ used]> used_ports
    | None => used_ports
    end
  else if decide (5555 ≤ host_port < 5655) then
    match used_ports !! "adb" with
    | Some used => <["adb" := {[host_port]} ∪ used]> used_ports
    | None => used_ports
    end
  else used_ports.

(** *** Sequences of pool operations

    [held] is a ghost component: the ports issued by [_allocate_port] and
    not released since, each with the pool it came from. *)
Inductive pool_op :=
  | Setup (host_port : Z)
  | Allocate (rng : nat) (port_type : string)
  | Release (port : Z) (port_type : string).

Record pools := mkPools {
  p_used : gmap string (gset Z);
  p_held : list (string * Z)
}.

Definition init_pools : pools := mkPools init_used_ports [].

Definition step (op : pool_op) (s : pools) : pools :=
  match op with
  | Setup p => mkPools (setup_host_port p (p_used s)) (p_held s)
  | Allocate rng ty =>
      match _allocate_port rng ty (p_used s) with
      | Ok (p, u) => mkPools u ((ty, p) :: p_held s)
      | Raise _ => s
      end
  | Release p ty =>
      match _release_port p ty (p_used s) with
      | Ok u => mkPools u (filter (λ h, h ≠ (ty, p)) (p_held s))
      | Raise _ => s
      end
  end.

Definition run (ops : list pool_op) (s : pools) : pools :=
  foldl (λ s op, step op s) s ops.

(** The in-use set and the available set of a pool in a state. *)
Definition in_use (ty : string) (u : gmap string (gset Z)) : gset Z :=
  default ∅ (u !! ty).
Definition pool_of (ty : string) : gset Z := default ∅ (port_pool !! ty).
Definition available (ty : string) (u : gmap string (gset Z)) : gset Z :=
  pool_of ty ∖ in_use ty u.

(** *** Sandbox creation *)

Definition redroid_images : gmap string string :=
  <["11" := "redroid/redroid:11.0.0-latest"]>
  (<["12" := "redroid/redroid:12.0.0-latest"]>
  (<["13" := "redroid/redroid:13.0.0-latest"]>
  (<["14" := "redroid/redroid:14.0.0-latest"]> ∅))).

(** The manager's mutable state and the daemon it talks to. *)
Record manager := mkManager {
  used_ports : gmap string (gset Z);
  containers : gmap string container
}.

(** What one call of [create_container] meets outside the process: the
    two draws of the random generator and the outcome of each step that
    can raise between the reservations and the return. *)
Record create_env := mkCreateEnv {
  rng_vnc : nat;
  rng_adb : nat;
  (** [_build_system_properties] and the [environment] dictionary *)
  build_environment : result unit;
  (** [os.makedirs(..., exist_ok=True)] *)
  makedirs : result unit;
  (** [int(cpu_limit * 100000)] and the rest of [container_config] *)
  build_config : result unit;
  (** [docker_client.containers.create]: the new container's id *)
  docker_create : result string
}.

(** The dictionary [create_container] returns. *)
Record container_info := mkInfo {
  info_container_id : string;
  info_container_name : string;
  info_vnc_port : Z;
  info_adb_port : Z;
  info_android_version : string;
  info_image : string
}.

(** The locals of [create_container] the handler reads; [None] is a
    local that no assignment has reached.  Reading such a local raises
    [UnboundLocalError] (the wording of its text varies with the Python
    version). *)
Record locals := mkLocals {
  vnc_port : option Z;
  adb_port : option Z
}.

Definition read_local (name : string) (v : option Z) : result Z :=
  match v with
  | Some p => Ok p
  | None => Raise (mkExn PyUnboundLocalError
      ("local variable '" ++ name ++ "' referenced before assignment"))
  end.

(** The [try] suite of [create_container]: its outcome, the locals bound
    when it ended, and the state it left. [_configure_container_network]
    catches every exception itself and changes nothing in this state. *)
Definition create_container_try (env : create_env) (container_name : string)
    (android_version : string) (network_config : bool) (m : manager)
    : result container_info * locals * manager :=
  match redroid_images !! android_version with
  | None =>
      (Raise (mkExn PyValueError
                ("Unsupported Android version: " ++ android_version)),
       mkLocals None None, m)
  | Some image =>
    match _allocate_port (rng_vnc env) "vnc" (used_ports m) with
    | Raise e => (Raise e, mkLocals None None, m)
    | Ok (vnc, u1) =>
      let m1 := mkManager u1 (containers m) in
      match _allocate_port (rng_adb env) "adb" u1 with
      | Raise e => (Raise e, mkLocals (Some vnc) None, m1)
      | Ok (adb, u2) =>
        let m2 := mkManager u2 (containers m) in
        let l2 := mkLocals (Some vnc) (Some adb) in
        match build_environment env with
        | Raise e => (Raise e, l2, m2)
        | Ok _ =>
        match makedirs env with
        | Raise e => (Raise e, l2, m2)
        | Ok _ =>
        match build_config env with
        | Raise e => (Raise e, l2, m2)
        | Ok _ =>
        match docker_create env with
        | Raise e => (Raise e, l2, m2)
        | Ok cid =>
            let c := mkContainer container_name image "created"
                       [("5555/tcp", adb); ("5900/tcp", vnc)]
                       (if network_config then Some "none" else None) in
            (Ok (mkInfo cid container_name vnc adb android_version image),
             l2, mkManager u2 (<[cid := c]> (containers m)))
        end end end end
      end
    end
  end.

(** The [except Exception as e] suite. *)
Definition create_container_except (e : exn) (l : locals) (m : manager)
    : result container_info * manager :=
  match read_local "vnc_port" (vnc_port l) with
  | Raise e' => (Raise e', m)
  | Ok vnc =>
    match _release_port vnc "vnc" (used_ports m) with
    | Raise e' => (Raise e', m)
    | Ok u1 =>
      let m1 := mkManager u1 (containers m) in
      match read_local "adb_port" (adb_port l) with
      | Raise e' => (Raise e', m1)
      | Ok adb =>
        match _release_port adb "adb" u1 with
        | Raise e' => (Raise e', m1)
        | Ok u2 =>
            (Raise (mkExn PyException
                      ("Container creation failed: " ++ exn_str e)),
             mkManager u2 (containers m))
        end
      end
    end
  end.

(** [create_container] *)
Definition create_container (env : create_env) (container_name : string)
    (android_version : string) (network_config : bool) (m : manager)
    : result container_info * manager :=
  match create_container_try env container_name android_version
          network_config m with
  | (Ok info, _, m') => (Ok info, m')
  | (Raise e, l, m') => create_container_except e l m'
  end.

(** [remove_container] of the manager (no endpoint of the lifecycle
    service calls it): the ports of the container's bindings that lie in
    a pool's range are released after the container is removed. *)
Definition release_binding (used : gmap string (gset Z)) (b : string * Z)
    : gmap string (gset Z) :=
  let host_port := b.2 in
  if decide (5900 ≤ host_port < 6000) then
    match _release_port host_port "vnc" used with Ok u => u | Raise _ => used end
  else if decide (5555 ≤ host_port < 5655) then
    match _release_port host_port "adb" used with Ok u => u | Raise _ => used end
  else used.

Definition remove_container (stop_remove : result unit) (container_id : string)
    (m : manager) : bool * manager :=
  match containers m !! container_id with
  | None => (false, m)
  | Some c =>
    match stop_remove with
    | Raise _ => (false, m)
    | Ok _ =>
        (true, mkManager (foldl release_binding (used_ports m) (c_port_bindings c))
                 (delete container_id (containers m)))
    end
  end.

End RedroidManager.

(** ** The lifecycle service ([main.py]) and its orchestrator *)

Module Lifecycle.

(** A row of the table [android_instances].  Times are seconds on the
    service's clock; the float [cpu_limit] is carried as the CPU quota
    [int(cpu_limit * 100000)] it stands for. *)
Record AndroidInstance := mkInstance {
  instance_id : string;
  container_id : option string;
  container_name : string;
  android_version : string;
  device_profile : option string;
  network_config : option string;
  location_config : option string;
  status : string;
  cpu_limit : Z;
  memory_limit : string;
  storage_size : string;
  vnc_port : option Z;
  adb_port : option Z;
  created_at : Z;
  started_at : option Z;
  stopped_at : option Z;
  last_heartbeat : option Z;
  error_message : option string
}.

(** Attribute assignments on a row. *)
Definition set_status (v : string) (i : AndroidInstance) : AndroidInstance :=
  mkInstance (instance_id i) (container_id i) (container_name i)
    (android_version i) (device_profile i) (network_config i)
    (location_config i) v (cpu_limit i) (memory_limit i) (storage_size i)
    (vnc_port i) (adb_port i) (created_at i) (started_at i) (stopped_at i)
    (last_heartbeat i) (error_message i).

Definition set_error_message (v : string) (i : AndroidInstance) : AndroidInstance :=
  mkInstance (instance_id i) (container_id i) (container_name i)
    (android_version i) (device_profile i) (network_config i)
    (location_config i) (status i) (cpu_limit i) (memory_limit i)
    (storage_size i) (vnc_port i) (adb_port i) (created_at i) (started_at i)
    (stopped_at i) (last_heartbeat i) (Some v).

Definition set_started_at (v : Z) (i : AndroidInstance) : AndroidInstance :=
  mkInstance (instance_id i) (container_id i) (container_name i)
    (android_version i) (device_profile i) (network_config i)
    (location_config i) (status i) (cpu_limit i) (memory_limit i)
    (storage_size i) (vnc_port i) (adb_port i) (created_at i) (Some v)
    (stopped_at i) (last_heartbeat i) (error_message i).

Definition set_stopped_at (v : Z) (i : AndroidInstance) : AndroidInstance :=
  mkInstance (instance_id i) (container_id i) (container_name i)
    (android_version i) (device_profile i) (network_config i)
    (location_config i) (status i) (cpu_limit i) (memory_limit i)
    (storage_size i) (vnc_port i) (adb_port i) (created_at i) (started_at i)
    (Some v) (last_heartbeat i) (error_message i).

Definition set_last_heartbeat (v : Z) (i : AndroidInstance) : AndroidInstance :=
  mkInstance (instance_id i) (container_id i) (container_name i)
    (android_version i) (device_profile i) (network_config i)
    (location_config i) (status i) (cpu_limit i) (memory_limit i)
    (storage_size i) (vnc_port i) (adb_port i) (created_at i) (started_at i)
    (stopped_at i) (Some v) (error_message i).

Definition set_container (cid : string) (vnc adb : Z) (i : AndroidInstance)
    : AndroidInstance :=
  mkInstance (instance_id i) (Some cid) (container_name i)
    (android_version i) (device_profile i) (network_config i)
    (location_config i) (status i) (cpu_limit i) (memory_limit i)
    (storage_size i) (Some vnc) (Some adb) (created_at i) (started_at i)
    (stopped_at i) (last_heartbeat i) (error_message i).

(** The stored specification of an instance: what a create was asked for. *)
Definition spec_of (i : AndroidInstance)
    : string * option string * option string * option string * Z * string * string :=
  (android_version i, device_profile i, network_config i, location_config i,
   cpu_limit i, memory_limit i, storage_size i).

(** Calls that leave the service, in the order they are made. *)
Inductive call :=
  | OrchStart (cid : option string)
  | OrchStop (cid : option string)
  | OrchRestart (cid : option string)
  | OrchRemove (cid : option string)
  | OrchCheckHealth (cid : option string)
  | RedroidCreate (name : string)
  | ConfigureInstance (name : string)
  | LocationPost (id : string)
  | NetworkDelete (id : string)
  | RedisDelete (key : string)
  | Sleep (seconds : Z).

(** The service's state: the table, the Redroid manager with the Docker
    daemon behind it, the orchestrator's statistics cache (its keys), the
    clock and the calls made so far. *)
Record world := mkWorld {
  db : gmap string AndroidInstance;
  redroid : RedroidManager.manager;
  container_stats_cache : gset string;
  now : Z;
  calls : list call
}.

Definition set_db (d : gmap string AndroidInstance) (w : world) : world :=
  mkWorld d (redroid w) (container_stats_cache w) (now w) (calls w).
Definition set_redroid (m : RedroidManager.manager) (w : world) : world :=
  mkWorld (db w) m (container_stats_cache w) (now w) (calls w).
Definition set_containers (c : gmap string container) (w : world) : world :=
  set_redroid (RedroidManager.mkManager (RedroidManager.used_ports (redroid w)) c) w.
Definition log (c : call) (w : world) : world :=
  mkWorld (db w) (redroid w) (container_stats_cache w) (now w) (calls w ++ [c]).
(** [asyncio.sleep(n)]: the clock moves on by [n] seconds. *)
Definition sleep (n : Z) (w : world) : world :=
  mkWorld (db w) (redroid w) (container_stats_cache w) (now w + n)
    (calls w ++ [Sleep n]).

(** What the calls of one request meet outside the process.  The polling
    loop [_wait_for_container_ready] is represented by its outcome. *)
Record env := mkEnv {
  (** [container.start()], [container.stop()], [container.restart()] and
      [container.remove()] raise for this container *)
  start_fails : string → bool;
  stop_fails : string → bool;
  restart_fails : string → bool;
  remove_fails : string → bool;
  (** the container answers the health probe before the time-out *)
  becomes_ready : string → bool;
  (** [container.exec_run("echo 'health_check'")]: the exit code *)
  exec_run : string → result Z;
  (** the outcomes met by [redroid_manager.create_container] *)
  create : RedroidManager.create_env;
  (** [android_configurator.configure_instance] re-raises what fails *)
  configure_instance : result unit;
  (** [requests.post] to the location service *)
  location_post : result unit;
  (** [requests.delete] to the network service *)
  network_delete : result unit;
  (** [redis_client.delete] *)
  redis_delete : result unit
}.

Definition get_container (cid : option string) (w : world) : option container :=
  cid ≫= λ c, RedroidManager.containers (redroid w) !! c.

Definition set_c_status (v : string) (c : container) : container :=
  mkContainer (c_name c) (c_image c) v (c_port_bindings c) (c_network_mode c).

(** *** [ContainerOrchestrator]: every method catches [Exception] and
    answers [False]. *)

(** [check_container_health]: reads the daemon only. *)
Definition check_container_health (e : env) (cid : option string) (w : world) : bool :=
  match cid, get_container cid w with
  | Some id, Some c =>
      if decide (c_status c = "running") then
        match exec_run e id with
        | Ok code => bool_decide (code = 0)
        | Raise _ => false
        end
      else false
  | _, _ => false
  end.

(** [_wait_for_container_ready] as seen by its caller: it returns, or it
    raises after the time-out. *)
Definition _wait_for_container_ready (e : env) (id : string) : result unit :=
  if becomes_ready e id then Ok ()
  else Raise (mkExn PyException ("Container " ++ id ++ " failed to become ready")).

Definition start_container (e : env) (cid : option string) (w : world) : bool * world :=
  let w := log (OrchStart cid) w in
  match cid, get_container cid w with
  | Some id, Some c =>
      if decide (c_status c = "running") then (true, w)
      else if start_fails e id then (false, w)
      else
        let w := set_containers
          (<[id := set_c_status "running" c]> (RedroidManager.containers (redroid w))) w in
        (is_ok (_wait_for_container_ready e id), w)
  | _, _ => (false, w)
  end.

Definition stop_container (e : env) (cid : option string) (w : world) : bool * world :=
  let w := log (OrchStop cid) w in
  match cid, get_container cid w with
  | Some id, Some c =>
      if decide (c_status c = "running") then
        if stop_fails e id then (false, w)
        else (true, set_containers
               (<[id := set_c_status "exited" c]> (RedroidManager.containers (redroid w))) w)
      else (true, w)
  | _, _ => (false, w)
  end.

Definition restart_container (e : env) (cid : option string) (w : world) : bool * world :=
  let w := log (OrchRestart cid) w in
  match cid, get_container cid w with
  | Some id, Some c =>
      if restart_fails e id then (false, w)
      else
        let w := set_containers
          (<[id := set_c_status "running" c]> (RedroidManager.containers (redroid w))) w in
        (is_ok (_wait_for_container_ready e id), w)
  | _, _ => (false, w)
  end.

(** [remove_container(container_id)] with the default [force=False]. *)
Definition remove_container (e : env) (cid : option string) (w : world) : bool * world :=
  let w := log (OrchRemove cid) w in
  match cid, get_container cid w with
  | Some id, Some c =>
      let stopped :=
        if decide (c_status c = "running") then
          if stop_fails e id then None
          else Some (set_containers
                 (<[id := set_c_status "exited" c]> (RedroidManager.containers (redroid w))) w)
        else Some w in
      match stopped with
      | None => (false, w)
      | Some w1 =>
          if remove_fails e id then (false, w1)
          else
            let w2 := set_containers (delete id (RedroidManager.containers (redroid w1))) w1 in
            (true, mkWorld (db w2) (redroid w2) (container_stats_cache w2 ∖ {[id]})
                     (now w2) (calls w2))
      end
  | _, _ => (false, w)
  end.

(** *** The endpoints *)

(** [HTTPException(status_code, detail)]; its text is the status code and
    the detail, as Starlette prints it. *)
Definition http_exception (status_code detail : string) : exn :=
  mkExn PyHTTPException (status_code ++ ": " ++ detail).

Definition not_found : exn := http_exception "404" "Instance not found".

(** [start_instance] *)
Definition start_instance (e : env) (id : string) (w : world) : result string * world :=
  match db w !! id with
  | None =>
      (Raise (http_exception "500" ("Failed to start instance: " ++ exn_str not_found)), w)
  | Some instance =>
      if decide (status instance = "running") then (Ok "already_running", w)
      else
        let w := (start_container e (container_id instance) w).2 in
        let instance :=
          set_last_heartbeat (now w) (set_started_at (now w)
            (set_status "running" instance)) in
        (Ok "started", set_db (<[id := instance]> (db w)) w)
  end.

(** [stop_instance] *)
Definition stop_instance (e : env) (id : string) (w : world) : result string * world :=
  match db w !! id with
  | None =>
      (Raise (http_exception "500" ("Failed to stop instance: " ++ exn_str not_found)), w)
  | Some instance =>
      let w := (stop_container e (container_id instance) w).2 in
      let instance := set_stopped_at (now w) (set_status "stopped" instance) in
      (Ok "stopped", set_db (<[id := instance]> (db w)) w)
  end.

(** [restart_instance] *)
Definition restart_instance (e : env) (id : string) (w : world) : result string * world :=
  match stop_instance e id w with
  | (Raise x, w) =>
      (Raise (http_exception "500" ("Failed to restart instance: " ++ exn_str x)), w)
  | (Ok _, w) =>
      let w := sleep 2 w in
      match start_instance e id w with
      | (Raise x, w) =>
          (Raise (http_exception "500" ("Failed to restart instance: " ++ exn_str x)), w)
      | (Ok _, w) => (Ok "restarted", w)
      end
  end.

(** [delete_instance] *)
Definition delete_instance (e : env) (id : string) (w : world) : result string * world :=
  match db w !! id with
  | None =>
      (Raise (http_exception "500" ("Failed to delete instance: " ++ exn_str not_found)), w)
  | Some instance =>
      let w :=
        match container_id instance with
        | Some cid => (remove_container e (Some cid) w).2
        | None => w
        end in
      (* the outcome of the request to the network service is dropped *)
      let w := log (NetworkDelete id) w in
      let w := set_db (delete id (db w)) w in
      let w := log (RedisDelete ("instance:" ++ id)) w in
      match redis_delete e with
      | Raise x =>
          (Raise (http_exception "500" ("Failed to delete instance: " ++ exn_str x)), w)
      | Ok _ => (Ok "deleted", w)
      end
  end.

(** *** Provisioning in the background: [create_container_async] *)

Definition none_has_no (attr : string) : exn :=
  mkExn PyAttributeError ("'NoneType' object has no attribute '" ++ attr ++ "'").

(** The [try] suite. *)
Definition create_container_async_try (e : env) (id container_name : string)
    (android_version : string) (network_config location_config : bool)
    (w : world) : result unit * world :=
  match db w !! id with
  | None => (Raise (none_has_no "status"), w)
  | Some instance =>
    let w := set_db (<[id := set_status "configuring" instance]> (db w)) w in
    let w := log (RedroidCreate container_name) w in
    match RedroidManager.create_container (create e) container_name
            android_version network_config (redroid w) with
    | (Raise x, m) => (Raise x, set_redroid m w)
    | (Ok container_info, m) =>
      let w := set_redroid m w in
      let w := log (ConfigureInstance container_name) w in
      match configure_instance e with
      | Raise x => (Raise x, w)
      | Ok _ =>
        let cid := RedroidManager.info_container_id container_info in
        let w := (start_container e (Some cid) w).2 in
        let w := sleep 10 w in
        let posted :=
          if location_config then (location_post e, log (LocationPost id) w)
          else (Ok (), w) in
        match posted with
        | (Raise x, w) => (Raise x, w)
        | (Ok _, w) =>
          match db w !! id with
          | None => (Raise (none_has_no "container_id"), w)
          | Some instance =>
            let instance :=
              set_last_heartbeat (now w) (set_started_at (now w)
                (set_status "running"
                  (set_container cid
                     (RedroidManager.info_vnc_port container_info)
                     (RedroidManager.info_adb_port container_info) instance))) in
            (Ok (), set_db (<[id := instance]> (db w)) w)
          end
        end
      end
    end
  end.

(** The [except Exception as e] suite. *)
Definition create_container_async_except (x : exn) (id : string) (w : world)
    : result unit * world :=
  match db w !! id with
  | None => (Raise (none_has_no "status"), w)
  | Some instance =>
      let instance := set_error_message (exn_str x) (set_status "failed" instance) in
      (Ok (), set_db (<[id := instance]> (db w)) w)
  end.

Definition create_container_async (e : env) (id container_name : string)
    (android_version : string) (network_config location_config : bool)
    (w : world) : result unit * world :=
  match create_container_async_try e id container_name android_version
          network_config location_config w with
  | (Ok _, w) => (Ok (), w)
  | (Raise x, w) => create_container_async_except x id w
  end.

(** *** The health sweep: [check_instance_health]

    [check] is [container_orchestrator.check_container_health] as the sweep
    sees it at a call: an answer or an exception. *)
Section Sweep.
Variable check : option string → result bool.

(** The body of the loop, on one row. *)
Definition sweep_row (t : Z) (instance : AndroidInstance) : AndroidInstance :=
  match check (container_id instance) with
  | Ok true => set_last_heartbeat t instance
  | Ok false =>
      set_error_message "Container health check failed"
        (set_status "failed" instance)
  | Raise x => set_error_message (exn_str x) (set_status "failed" instance)
  end.

(** One turn of the loop: the health check is called on the row's
    container and the row is written back. *)
Definition sweep_visit (w : world) (kv : string * AndroidInstance) : world :=
  let w := log (OrchCheckHealth (container_id kv.2)) w in
  set_db (<[kv.1 := sweep_row (now w) kv.2]> (db w)) w.

(** The rows are visited in the order of [map_to_list]; the source
    leaves the order to the database. *)
Definition check_instance_health (w : world) : world :=
  let instances :=
    filter (λ kv, status kv.2 = "running") (map_to_list (db w)) in
  foldl sweep_visit w instances.

End Sweep.

(** The sweep with the orchestrator of the service. *)
Definition check_instance_health_service (e : env) (w : world) : world :=
  check_instance_health (λ cid, Ok (check_container_health e cid w)) w.

(** *** Requests in sequence *)

(** The requests the service handles, each with what it meets outside. *)
Inductive request :=
  | Provision (e : env) (id container_name android_version : string)
      (network_config location_config : bool)
  | Start (e : env) (id : string)
  | Stop (e : env) (id : string)
  | Restart (e : env) (id : string)
  | Delete (e : env) (id : string)
  | Sweep (e : env).

Definition serve (r : request) (w : world) : world :=
  match r with
  | Provision e id container_name android_version network_config location_config =>
      (create_container_async e id container_name android_version
         network_config location_config w).2
  | Start e id => (start_instance e id w).2
  | Stop e id => (stop_instance e id w).2
  | Restart e id => (restart_instance e id w).2
  | Delete e id => (delete_instance e id w).2
  | Sweep e => check_instance_health_service e w
  end.

Definition serve_all (rs : list request) (w : world) : world :=
  foldl (λ w r, serve r w) w rs.

(** *** [ContainerOrchestrator.cleanup_stopped_containers]

    [daemon_up] tells whether [containers.list(all=True)] answers; the
    containers are visited in the order of [map_to_list]. *)
Definition cleanup_candidate (c : container) : bool :=
  String.prefix "android-" (c_name c) &&
  bool_decide (c_status c ∈ ["exited"; "dead"]).

Definition cleanup_visit (e : env) (acc : Z * world) (kv : string * container)
    : Z * world :=
  if cleanup_candidate kv.2 then
    if remove_fails e kv.1 then acc
    else (acc.1 + 1,
          set_containers (delete kv.1 (RedroidManager.containers (redroid acc.2))) acc.2)
  else acc.

Definition cleanup_stopped_containers (e : env) (daemon_up : bool) (w : world)
    : Z * world :=
  if daemon_up then
    foldl (cleanup_visit e) (0, w)
      (map_to_list (RedroidManager.containers (redroid w)))
  else (0, w).

End Lifecycle.

(** ** The network isolator ([network_isolator.py]) *)

(** What [subprocess.run(argv)] meets: the command ran and left an exit
    status, or it could not be launched ([OSError]). *)
Inductive run_outcome :=
  | Completed (returncode : Z)
  | LaunchFailed.

(** The machine the commands run on: a state and the effect and outcome
    of every command line. *)
Class Host := {
  host_state : Type;
  execute : list string → host_state → run_outcome * host_state
}.

Module NetworkIsolator.

(** [repr] of a list of plain strings. *)
Definition py_repr_list (argv : list string) : string :=
  "[" ++ String.concat ", " ((λ a, "'" ++ a ++ "'") <$> argv) ++ "]".

(** The exceptions of [subprocess.run]; for a command killed by a signal
    Python words the first text differently. *)
Definition called_process_error (argv : list string) (returncode : Z) : exn :=
  mkExn PyCalledProcessError
    ("Command '" ++ py_repr_list argv ++ "' returned non-zero exit status "
     ++ pretty returncode ++ ".").

Definition launch_error (argv : list string) : exn :=
  mkExn PyOSError
    ("[Errno 2] No such file or directory: '" ++ default "" (head argv) ++ "'").

Section WithHost.
Context `{Host}.

(** The isolator: the registry [active_namespaces] and the machine.
    [runs] is a ghost component, the calls of [subprocess.run] made so
    far: command line, [check] flag and outcome. *)
Record isolator := mkIsolator {
  active_namespaces : gset string;
  host : host_state;
  runs : list (list string * bool * run_outcome)
}.

(** Methods run in a state-and-exception monad over the isolator. *)
Definition M (A : Type) : Type := isolator → result A * isolator.

Definition ret {A} (a : A) : M A := λ st, (Ok a, st).
Definition bind {A B} (m : M A) (k : A → M B) : M B := λ st,
  match m st with
  | (Ok a, st') => k a st'
  | (Raise x, st') => (Raise x, st')
  end.
(** [try: m  except <classes>: handler] *)
Definition try_except {A} (m : M A) (caught : exn → bool) (handler : exn → M A) : M A :=
  λ st,
  match m st with
  | (Ok a, st') => (Ok a, st')
  | (Raise x, st') => if caught x then handler x st' else (Raise x, st')
  end.

Notation "x <- m ;; k" := (bind m (λ x, k))
  (at level 100, m at next level, right associativity, only parsing).
Notation "m ;;; k" := (bind m (λ _, k))
  (at level 100, right associativity, only parsing).

(** [subprocess.run(argv, check=check)] *)
Definition run (check : bool) (argv : list string) : M Z := λ st,
  let (outcome, h) := execute argv (host st) in
  let st' := mkIsolator (active_namespaces st) h
               (runs st ++ [(argv, check, outcome)]) in
  match outcome with
  | LaunchFailed => (Raise (launch_error argv), st')
  | Completed returncode =>
      if check && bool_decide (returncode ≠ 0)
      then (Raise (called_process_error argv returncode), st')
      else (Ok returncode, st')
  end.

(** A run of command lines one after the other, as in a straight-line
    suite: the first exception ends it. *)
Fixpoint run_each (check_argvs : list (bool * list string)) : M unit :=
  match check_argvs with
  | [] => ret ()
  | (check, argv) :: rest => run check argv ;;; run_each rest
  end.

Definition any_exception (x : exn) : bool := true.
Definition is_called_process_error (x : exn) : bool :=
  match exn_class_of x with PyCalledProcessError => true | _ => false end.

(** [namespace[:8]] *)
Definition first8 (namespace : string) : string := String.substring 0 8 namespace.

(** [_setup_default_iptables]: each command in its own [try], every
    exception passed over. *)
Definition default_iptables_commands : list (list string) :=
  [ ["iptables"; "-t"; "nat"; "-F"];
    ["iptables"; "-t"; "nat"; "-A"; "POSTROUTING"; "-s"; "172.20.0.0/16";
     "-j"; "MASQUERADE"];
    ["iptables"; "-A"; "FORWARD"; "-i"; "docker0"; "-o"; "docker0"; "-j"; "ACCEPT"];
    ["iptables"; "-A"; "FORWARD"; "-s"; "172.20.0.0/16"; "-j"; "ACCEPT"];
    ["iptables"; "-A"; "FORWARD"; "-d"; "172.20.0.0/16"; "-j"; "ACCEPT"] ].

Fixpoint for_each_passing (commands : list (list string)) : M unit :=
  match commands with
  | [] => ret ()
  | cmd :: rest =>
      try_except (run false cmd ;;; ret ()) any_exception (λ _, ret ()) ;;;
      for_each_passing rest
  end.

Definition _setup_default_iptables : M unit :=
  for_each_passing default_iptables_commands.

(** [_setup_namespace_iptables] *)
Definition namespace_iptables_commands (ip_address : string) : list (bool * list string) :=
  [ (false, ["iptables"; "-A"; "FORWARD"; "-s"; ip_address; "-j"; "ACCEPT"]);
    (false, ["iptables"; "-A"; "FORWARD"; "-d"; ip_address; "-j"; "ACCEPT"]);
    (false, ["iptables"; "-t"; "nat"; "-A"; "POSTROUTING"; "-s"; ip_address;
             "-j"; "MASQUERADE"]) ].

Definition _setup_namespace_iptables (namespace ip_address : string) : M unit :=
  run_each (namespace_iptables_commands ip_address).

(** [_cleanup_namespace_iptables]: the whole suite in one [try] with a
    bare [except: pass]. *)
Definition _cleanup_namespace_iptables (namespace : string) : M unit :=
  try_except
    (run_each [ (false, ["iptables"; "-F"; "FORWARD"]);
                (false, ["iptables"; "-t"; "nat"; "-F"; "POSTROUTING"]) ] ;;;
     _setup_default_iptables)
    any_exception (λ _, ret ()).

(** [destroy_namespace] *)
Definition destroy_namespace (namespace : string) : M bool :=
  try_except
    (_cleanup_namespace_iptables namespace ;;;
     let veth_host := "veth-" ++ first8 namespace in
     run_each [ (false, ["ip"; "link"; "delete"; veth_host]);
                (false, ["ip"; "netns"; "delete"; namespace]) ] ;;;
     (λ st, (Ok true,
             mkIsolator (active_namespaces st ∖ {[namespace]}) (host st) (runs st))))
    any_exception (λ _, ret false).

(** The command lines of [create_namespace] before the packet-filter
    rules, with their [check] flags. *)
Definition create_commands (namespace ip_address : string) : list (bool * list string) :=
  let veth_host := "veth-" ++ first8 namespace in
  let veth_ns := "veth-ns-" ++ first8 namespace in
  [ (true, ["ip"; "netns"; "add"; namespace]);
    (true, ["ip"; "link"; "add"; veth_host; "type"; "veth"; "peer"; "name"; veth_ns]);
    (true, ["ip"; "link"; "set"; veth_ns; "netns"; namespace]);
    (true, ["ip"; "link"; "set"; veth_host; "up"]);
    (false, ["ip"; "addr"; "add"; "172.20.1.1/24"; "dev"; veth_host]);
    (true, ["ip"; "netns"; "exec"; namespace; "ip"; "link"; "set"; "lo"; "up"]);
    (true, ["ip"; "netns"; "exec"; namespace; "ip"; "link"; "set"; veth_ns; "up"]);
    (true, ["ip"; "netns"; "exec"; namespace; "ip"; "addr"; "add";
            ip_address ++ "/24"; "dev"; veth_ns]);
    (true, ["ip"; "netns"; "exec"; namespace; "ip"; "route"; "add"; "default";
            "via"; "172.20.1.1"]) ].

(** The [try] suite of [create_namespace]. *)
Definition create_namespace_try (namespace ip_address : string) : M bool :=
  run_each (create_commands namespace ip_address) ;;;
  _setup_namespace_iptables namespace ip_address ;;;
  (λ st, (Ok true,
          mkIsolator ({[namespace]} ∪ active_namespaces st) (host st) (runs st))).

(** [create_namespace]: only [CalledProcessError] is caught. *)
Definition create_namespace (namespace ip_address : string) : M bool :=
  try_except (create_namespace_try namespace ip_address)
    is_called_process_error
    (λ _, destroy_namespace namespace ;;; ret false).

(** [cleanup_all_namespaces]: every registered namespace is destroyed, in
    the order [list(self.active_namespaces)] gives (here that of
    [elements]); the answer is the number the method prints. *)
Fixpoint destroy_each (namespaces : list string) : M unit :=
  match namespaces with
  | [] => ret ()
  | namespace :: rest => destroy_namespace namespace ;;; destroy_each rest
  end.

Definition cleanup_all_namespaces : M nat := λ st,
  let namespaces_to_cleanup := elements (active_namespaces st) in
  (destroy_each namespaces_to_cleanup ;;; ret (length namespaces_to_cleanup)) st.

Definition commands_of (rs : list (list string * bool * run_outcome)) : list (list string) :=
  (λ r, r.1.1) <$> rs.


(** The machine can launch the program: [subprocess.run] of a command line
    that starts with it never ends in [OSError]. *)
Definition launches_program (program : string) : Prop :=
  ∀ args h, (execute (program :: args) h).1 ≠ LaunchFailed.


(** From [st] to [st'] the registry is the same and only calls with
    [check=False] were made. *)
Definition unchecked_calls_only (st st' : isolator) : Prop :=
  active_namespaces st' = active_namespaces st ∧
  ∃ new, runs st' = (runs st ++ new)%list ∧ ∀ argv outcome, (argv, true, outcome) ∉ new.

End WithHost.
End NetworkIsolator.

(** ** A model of the machine, for the packet-filter chains

    This is not code of the repository: it is the part of [ip] and
    [iptables] the isolator relies on.  A table is a dictionary from chain
    to rule list; [-A] appends a rule to a chain, [-F] empties one chain or,
    without a chain, every chain of the table; [ip netns] and [ip link]
    add and delete names; the remaining [ip] commands change nothing that
    is recorded here. *)

Module Linux.

Record kernel := mkKernel {
  netns : gset string;
  links : gset string;
  tables : gmap string (gmap string (list (list string)))
}.

Definition boot : kernel :=
  mkKernel ∅ ∅
    (<["filter" := <["INPUT" := []]> (<["FORWARD" := []]> (<["OUTPUT" := []]> ∅))]>
    (<["nat" := <["PREROUTING" := []]> (<["INPUT" := []]> (<["OUTPUT" := []]>
                 (<["POSTROUTING" := []]> ∅)))]> ∅)).

(** The rules of a chain. *)
Definition chain (table name : string) (k : kernel) : list (list string) :=
  default [] (tables k !! table ≫= λ chains, chains !! name).

(** [-t table] selects the table; [filter] is the default. *)
Definition table_and_rest (args : list string) : string * list string :=
  match args with
  | flag :: table :: rest =>
      if decide (flag = "-t") then (table, rest) else ("filter", args)
  | _ => ("filter", args)
  end.

(** One [iptables] operation on a table. *)
Definition iptables_in (table : string) (operation : list string)
    (t : gmap string (gmap string (list (list string))))
    : Z * gmap string (gmap string (list (list string))) :=
  match t !! table, operation with
  | Some chains, op :: operands =>
      if decide (op = "-F") then
        match operands with
        | [] => (0, <[table := (λ _, []) <$> chains]> t)
        | [name] =>
            match chains !! name with
            | Some _ => (0, <[table := <[name := []]> chains]> t)
            | None => (1, t)
            end
        | _ => (2, t)
        end
      else if decide (op = "-A") then
        match operands with
        | name :: rule =>
            match chains !! name with
            | Some rules =>
                (0, <[table := <[name := (rules ++ [rule])%list]> chains]> t)
            | None => (1, t)
            end
        | [] => (2, t)
        end
      else (2, t)
  | _, _ => (2, t)
  end.

Definition iptables (args : list string) (k : kernel) : Z * kernel :=
  let (table, operation) := table_and_rest args in
  let (code, t) := iptables_in table operation (tables k) in
  (code, mkKernel (netns k) (links k) t).

(** The names [ip] takes for a link ([check_ifname] of iproute2, which
    mirrors the kernel's [dev_valid_name]): not empty, shorter than
    [IFNAMSIZ], without [/] and white space. *)
Definition IFNAMSIZ : nat := 16.

Fixpoint ifname_chars (name : string) : bool :=
  match name with
  | EmptyString => true
  | String c rest =>
      negb (bool_decide (c = "/"%char) || Ascii.is_space c) && ifname_chars rest
  end.

Definition valid_ifname (name : string) : bool :=
  bool_decide (0 < String.length name < IFNAMSIZ)%nat && ifname_chars name.

(** The name after [peer name] on the command line of [ip link add]. *)
Fixpoint peer_name (args : list string) : option string :=
  match args with
  | a :: rest =>
      match rest with
      | b :: peer :: _ =>
          if decide (a = "peer" ∧ b = "name") then Some peer else peer_name rest
      | _ => None
      end
  | [] => None
  end.

(** [ip]: namespaces and the links of the host.  [ip link add] refuses a
    name that is not valid, for either end of the pair, with the exit
    status 255 of a wrong argument, before it looks at the machine. *)
Definition ip (args : list string) (k : kernel) : Z * kernel :=
  match args with
  | object :: verb :: name :: rest =>
      if decide (object = "netns") then
        if decide (verb = "add") then
          if decide (name ∈ netns k) then (1, k)
          else (0, mkKernel ({[name]} ∪ netns k) (links k) (tables k))
        else if decide (verb = "delete") then
          if decide (name ∈ netns k)
          then (0, mkKernel (netns k ∖ {[name]}) (links k) (tables k))
          else (1, k)
        else if decide (verb = "exec") then
          if decide (name ∈ netns k) then (0, k) else (1, k)
        else (0, k)
      else if decide (object = "link") then
        if decide (verb = "add") then
          if negb (valid_ifname name && from_option valid_ifname true (peer_name rest))
          then (255, k)
          else if decide (name ∈ links k) then (2, k)
          else (0, mkKernel (netns k) ({[name]} ∪ links k) (tables k))
        else if decide (verb = "delete") then
          if decide (name ∈ links k)
          then (0, mkKernel (netns k) (links k ∖ {[name]}) (tables k))
          else (1, k)
        else (0, k)
      else (0, k)
  | _ => (0, k)
  end.

Definition linux_execute (argv : list string) (k : kernel) : run_outcome * kernel :=
  match argv with
  | program :: args =>
      if decide (program = "iptables") then
        let (code, k') := iptables args k in (Completed code, k')
      else if decide (program = "ip") then
        let (code, k') := ip args k in (Completed code, k')
      else (LaunchFailed, k)
  | [] => (LaunchFailed, k)
  end.

(** The commands of [destroy_namespace], as one function of the machine. *)
Definition machine_after_destroy (namespace : string) (k : kernel) : kernel :=
  foldl (λ k argv, (linux_execute argv k).2) k
    (([ ["iptables"; "-F"; "FORWARD"];
       ["iptables"; "-t"; "nat"; "-F"; "POSTROUTING"] ] ++
     NetworkIsolator.default_iptables_commands ++
     [ ["ip"; "link"; "delete"; ("veth-" ++ NetworkIsolator.first8 namespace)%string];
       ["ip"; "netns"; "delete"; namespace] ]))%list.

Definition linux : Host := {| host_state := kernel; execute := linux_execute |}.


(** The rules [_setup_namespace_iptables] appends for an address, and
    the rules [_setup_default_iptables] appends. *)
Definition forward_from (ip_address : string) : list string :=
  ["-s"; ip_address; "-j"; "ACCEPT"].
Definition forward_to (ip_address : string) : list string :=
  ["-d"; ip_address; "-j"; "ACCEPT"].
Definition masquerade (ip_address : string) : list string :=
  ["-s"; ip_address; "-j"; "MASQUERADE"].

(** The machine has the two chains the isolator writes to. *)
Definition has_chains (k : kernel) : Prop :=
  is_Some (tables k !! "filter" ≫= λ chains, chains !! "FORWARD") ∧
  is_Some (tables k !! "nat" ≫= λ chains, chains !! "POSTROUTING").

Definition default_forward : list (list string) :=
  [ ["-i"; "docker0"; "-o"; "docker0"; "-j"; "ACCEPT"];
    forward_from "172.20.0.0/16"; forward_to "172.20.0.0/16" ].
Definition default_postrouting : list (list string) :=
  [ masquerade "172.20.0.0/16" ].

End Linux.

(** ** The address generator of the network service ([network-manager/main.py]) *)

Module NetworkManager.

(** [random.randint(lo, hi)]: [rng] is the generator's draw. *)
Definition randint (lo hi : Z) (rng : nat) : Z :=
  lo + Z.of_nat rng `mod` (hi - lo + 1).

(** [str] of an [IPv4Address], given as its 32-bit integer. *)
Definition ipv4_str (a : Z) : string :=
  pretty (a `div` 16777216 `mod` 256) ++ "." ++
  pretty (a `div` 65536 `mod` 256) ++ "." ++
  pretty (a `div` 256 `mod` 256) ++ "." ++
  pretty (a `mod` 256).

(** [IPv4Network('172.20.0.0/16').network_address] *)
Definition network_address : Z := 172 * 16777216 + 20 * 65536.

Definition reserved_gateways : list string := ["172.20.0.1"; "172.20.0.2"].

(** [generate_private_ip]: the [while True] loop consumes one draw per
    turn; [None] stands for a loop that has used up the draws it was
    given without returning. *)
Fixpoint generate_private_ip (draws : list nat) : option string :=
  match draws with
  | [] => None
  | rng :: rest =>
      let host_part := randint 100 65000 rng in
      let ip := ipv4_str (network_address + host_part) in
      if decide (ip ∉ reserved_gateways) then Some ip
      else generate_private_ip rest
  end.

End NetworkManager.

(** ** Concrete worlds used in the examples below *)

Module Examples.
Import Lifecycle.

(** An instance just stored by [create_instance]. *)
Definition pending : AndroidInstance :=
  mkInstance "7f3a9c1e-0000" None "android-7f3a9c1e" "13"
    (Some "{manufacturer: Google, model: Pixel 7}") None None "creating"
    200000 "4G" "8G" None None 1000 None None None None.

Definition fresh_world : world :=
  mkWorld {["7f3a9c1e-0000" := pending]}
    (RedroidManager.mkManager RedroidManager.init_used_ports ∅) ∅ 1000 [].

(** Everything outside answers well; the daemon names the container. *)
Definition fair_weather : env :=
  mkEnv (λ _, false) (λ _, false) (λ _, false) (λ _, false) (λ _, true)
    (λ _, Ok 0)
    (RedroidManager.mkCreateEnv 3 250 (Ok ()) (Ok ()) (Ok ()) (Ok "c0ffee"))
    (Ok ()) (Ok ()) (Ok ()) (Ok ()).

(** The same, except that configuring Android fails. *)
Definition configure_breaks : env :=
  mkEnv (λ _, false) (λ _, false) (λ _, false) (λ _, false) (λ _, true)
    (λ _, Ok 0)
    (RedroidManager.mkCreateEnv 3 250 (Ok ()) (Ok ()) (Ok ()) (Ok "c0ffee"))
    (Raise (mkExn PyException "Android failed to become ready in android-7f3a9c1e"))
    (Ok ()) (Ok ()) (Ok ()).



(** The same as [fair_weather], except that the health probe exits with 1. *)
Definition probe_fails : env :=
  mkEnv (λ _, false) (λ _, false) (λ _, false) (λ _, false) (λ _, true)
    (λ _, Ok 1)
    (RedroidManager.mkCreateEnv 3 250 (Ok ()) (Ok ()) (Ok ()) (Ok "c0ffee"))
    (Ok ()) (Ok ()) (Ok ()) (Ok ()).


(** The world once provisioning of [pending] has gone through, and once
    it has failed at the configuration step. *)
Definition provisioned : world :=
  (create_container_async fair_weather "7f3a9c1e-0000" "android-7f3a9c1e"
     "13" false false fresh_world).2.

Definition half_provisioned : world :=
  (create_container_async configure_breaks "7f3a9c1e-0000" "android-7f3a9c1e"
     "13" false false fresh_world).2.

(** The provisioned instance after a stop, 60 seconds later. *)
Definition stopped_world : world :=
  let w := provisioned in
  (stop_instance fair_weather "7f3a9c1e-0000"
     (mkWorld (db w) (redroid w) (container_stats_cache w) (now w + 60) [])).2.

(** ... and a further 60 seconds later, with an empty call log. *)
Definition stopped_later : world :=
  let w := stopped_world in
  mkWorld (db w) (redroid w) (container_stats_cache w) (now w + 60) [].

(** The provisioned world with an empty call log. *)
Definition live_world : world :=
  let w := provisioned in
  mkWorld (db w) (redroid w) (container_stats_cache w) (now w) [].

(** Two namespaces on a freshly booted machine. *)
Definition isolator0 : NetworkIsolator.isolator (H := Linux.linux) :=
  NetworkIsolator.mkIsolator (H := Linux.linux) ∅ Linux.boot [].

Definition two_namespaces : NetworkIsolator.isolator (H := Linux.linux) :=
  let st := (NetworkIsolator.create_namespace (H := Linux.linux)
               "netns-a" "172.20.3.4" isolator0).2 in
  (NetworkIsolator.create_namespace (H := Linux.linux)
     "netns-b" "172.20.7.9" st).2.


End Examples.

(** * Properties *)

Lemma elem_of_py_range lo hi p : p ∈ py_range lo hi ↔ lo ≤ p < hi.
Proof.
  unfold py_range. rewrite list_elem_of_fmap. split.
  - intros (i & -> & Hi). apply elem_of_seq in Hi. lia.
  - intros Hp. exists (Z.to_nat (p - lo)). split; [lia|].
    apply elem_of_seq. lia.
Qed.

(** ** Port pools *)

Section PortPools.
Import RedroidManager.

Lemma random_choice_Some rng l p : random_choice rng l = Some p → p ∈ l.
Proof. unfold random_choice. intros H. by eapply list_elem_of_lookup_2. Qed.

Lemma random_choice_None rng l : random_choice rng l = None ↔ l = [].
Proof.
  unfold random_choice. split.
  - intros H. destruct l as [|x l]; [done|].
    apply lookup_ge_None in H.
    pose proof (Nat.mod_upper_bound rng (length (x :: l))) as Hlt.
    simpl in *. lia.
  - by intros ->.
Qed.

(** Every element of the list can be drawn. *)
Lemma random_choice_any l p : p ∈ l → ∃ rng, random_choice rng l = Some p.
Proof.
  intros Hp. apply list_elem_of_lookup in Hp as [i Hi].
  exists i. unfold random_choice.
  rewrite Nat.mod_small; [done|]. by eapply lookup_lt_Some.
Qed.

Lemma pool_keys ty : is_Some (port_pool !! ty) ↔ ty = "vnc" ∨ ty = "adb".
Proof.
  unfold port_pool. split.
  - intros [x Hx].
    destruct (decide (ty = "vnc")) as [|n1]; [by left|].
    destruct (decide (ty = "adb")) as [|n2]; [by right|].
    rewrite !lookup_insert_ne in Hx by done. by rewrite lookup_empty in Hx.
  - intros [-> | ->]; [rewrite lookup_insert_eq|
      rewrite lookup_insert_ne by done; rewrite lookup_insert_eq]; eauto.
Qed.

Lemma allocate_Ok rng ty u p u' :
  _allocate_port rng ty u = Ok (p, u') →
  ∃ pool used, port_pool !! ty = Some pool ∧ u !! ty = Some used ∧
    p ∈ pool ∧ p ∉ used ∧ u' = <[ty := {[p]} ∪ used]> u.
Proof.
  unfold _allocate_port, getitem, mbind, result_bind.
  destruct (port_pool !! ty) as [pool|]; [|done].
  destruct (u !! ty) as [used|]; [|done].
  destruct (random_choice _ _) as [q|] eqn:Hq; [|done].
  intros [= -> <-]. exists pool, used.
  apply random_choice_Some, elem_of_elements in Hq. set_solver.
Qed.

Lemma allocate_Raise rng ty u e used :
  is_Some (port_pool !! ty) → u !! ty = Some used →
  _allocate_port rng ty u = Raise e →
  available ty u = ∅ ∧ e = mkExn PyException ("No available " ++ ty ++ " ports").
Proof.
  intros [pool Hpool] Hu.
  unfold _allocate_port, getitem, mbind, result_bind, available, pool_of, in_use.
  rewrite Hpool, Hu. simpl.
  destruct (random_choice _ _) as [q|] eqn:Hq; [done|].
  intros [= <-]. split; [|done].
  apply random_choice_None in Hq. apply leibniz_equiv. by apply elements_empty_inv.
Qed.

Lemma allocate_empty rng ty u :
  available ty u = ∅ → is_ok (_allocate_port rng ty u) = false.
Proof.
  unfold _allocate_port, getitem, mbind, result_bind, available, pool_of, in_use.
  destruct (port_pool !! ty) as [pool|]; [|done].
  destruct (u !! ty) as [used|]; [|done]. simpl. intros ->.
  by rewrite elements_empty.
Qed.

Lemma release_Ok p ty u u' :
  _release_port p ty u = Ok u' →
  ∃ used, u !! ty = Some used ∧ u' = <[ty := used ∖ {[p]}]> u.
Proof.
  unfold _release_port, getitem, mbind, result_bind.
  destruct (u !! ty) as [used|]; [|done]. intros [= <-]. eauto.
Qed.

Lemma in_use_insert ty ty' X u :
  in_use ty' (<[ty := X]> u) = if decide (ty = ty') then X else in_use ty' u.
Proof.
  unfold in_use. rewrite lookup_insert. by case_decide.
Qed.

(** The invariant of the pools: both keys are present, what is in use
    comes from the pool, and the ports that were issued and not returned
    are in use and pairwise distinct. *)
Record pools_inv (s : pools) : Prop := {
  inv_keys : ∀ ty, is_Some (port_pool !! ty) → is_Some (p_used s !! ty);
  inv_sub : ∀ ty, in_use ty (p_used s) ⊆ pool_of ty;
  inv_nodup : NoDup (p_held s);
  inv_held : ∀ ty p, (ty, p) ∈ p_held s → p ∈ in_use ty (p_used s)
}.

Lemma pools_inv_init : pools_inv init_pools.
Proof.
  split; simpl.
  - intros ty Hty. apply pool_keys in Hty as [-> | ->]; unfold init_used_ports;
      [rewrite lookup_insert_eq|
       rewrite lookup_insert_ne by done; rewrite lookup_insert_eq]; eauto.
  - intros ty. unfold in_use, init_used_ports.
    destruct (decide (ty = "vnc")) as [->|n1]; [by rewrite lookup_insert_eq|].
    rewrite lookup_insert_ne by done.
    destruct (decide (ty = "adb")) as [->|n2]; [by rewrite lookup_insert_eq|].
    rewrite lookup_insert_ne by done. by rewrite lookup_empty.
  - constructor.
  - intros ty p H. by apply elem_of_nil in H.
Qed.

Lemma pool_of_vnc p : p ∈ pool_of "vnc" ↔ 5900 ≤ p < 6000.
Proof.
  unfold pool_of, port_pool. rewrite lookup_insert_eq.
  change (p ∈ (list_to_set (py_range 5900 6000) : gset Z) ↔ 5900 ≤ p < 6000).
  by rewrite elem_of_list_to_set, elem_of_py_range.
Qed.

Lemma pool_of_adb p : p ∈ pool_of "adb" ↔ 5555 ≤ p < 5655.
Proof.
  unfold pool_of, port_pool.
  rewrite lookup_insert_ne by done. rewrite lookup_insert_eq.
  change (p ∈ (list_to_set (py_range 5555 5655) : gset Z) ↔ 5555 ≤ p < 5655).
  by rewrite elem_of_list_to_set, elem_of_py_range.
Qed.

(** The two ranges do not meet, and no other key has a pool. *)
Lemma pool_of_disjoint ty1 ty2 p : p ∈ pool_of ty1 → p ∈ pool_of ty2 → ty1 = ty2.
Proof.
  assert (∀ ty, p ∈ pool_of ty →
            (ty = "vnc" ∧ 5900 ≤ p < 6000) ∨ (ty = "adb" ∧ 5555 ≤ p < 5655)) as Hcases.
  { intros ty Hp.
    destruct (port_pool !! ty) as [pool|] eqn:Hpool.
    - assert (is_Some (port_pool !! ty)) as [-> | ->]%pool_keys by eauto.
      + left. split; [done|]. by apply pool_of_vnc.
      + right. split; [done|]. by apply pool_of_adb.
    - unfold pool_of in Hp. rewrite Hpool in Hp. by apply not_elem_of_empty in Hp. }
  intros [[-> ?]|[-> ?]]%Hcases [[-> ?]|[-> ?]]%Hcases; (done || lia).
Qed.

Lemma pools_inv_step op s : pools_inv s → pools_inv (step op s).
Proof.
  intros [Hk Hs Hn Hh]. destruct op as [hp | rng ty | p ty]; simpl.
  - (* Setup *)
    unfold setup_host_port.
    destruct (decide (5900 ≤ hp < 6000)) as [Hv|Hv].
    { destruct (p_used s !! "vnc") as [used|] eqn:Hu; [|by split].
      split; simpl; [| |done|].
      - intros ty Hty. rewrite lookup_insert. case_decide; eauto.
      - intros ty. rewrite in_use_insert. case_decide as Hd; [subst ty|done].
        specialize (Hs "vnc"). unfold in_use in Hs. rewrite Hu in Hs. simpl in Hs.
        apply pool_of_vnc in Hv. set_solver.
      - intros ty q Hq. rewrite in_use_insert. case_decide as Hd; [subst ty|by auto].
        specialize (Hh _ _ Hq). unfold in_use in Hh. rewrite Hu in Hh. set_solver. }
    destruct (decide (5555 ≤ hp < 5655)) as [Ha|Ha]; [|by split].
    destruct (p_used s !! "adb") as [used|] eqn:Hu; [|by split].
    split; simpl; [| |done|].
    + intros ty Hty. rewrite lookup_insert. case_decide; eauto.
    + intros ty. rewrite in_use_insert. case_decide as Hd; [subst ty|done].
      specialize (Hs "adb"). unfold in_use in Hs. rewrite Hu in Hs. simpl in Hs.
      apply pool_of_adb in Ha. set_solver.
    + intros ty q Hq. rewrite in_use_insert. case_decide as Hd; [subst ty|by auto].
      specialize (Hh _ _ Hq). unfold in_use in Hh. rewrite Hu in Hh. set_solver.
  - (* Allocate *)
    destruct (_allocate_port rng ty (p_used s)) as [[p u']|e] eqn:Ha; [|by split].
    apply allocate_Ok in Ha as (pool & used & Hp & Hu & Hin & Hnin & ->).
    assert (in_use ty (p_used s) = used) as Hiu by (unfold in_use; by rewrite Hu).
    split; simpl.
    + intros ty' Hty'. rewrite lookup_insert. case_decide; eauto.
    + intros ty'. rewrite in_use_insert. case_decide as Hd; [subst ty'|done].
      specialize (Hs ty). rewrite Hiu in Hs.
      assert (pool_of ty = pool) as Hpo by (unfold pool_of; by rewrite Hp).
      rewrite Hpo in *. set_solver.
    + constructor; [|done]. intros Hel. apply Hh in Hel. rewrite Hiu in Hel. done.
    + intros ty' q [Heq|Hq]%elem_of_cons; rewrite in_use_insert.
      * injection Heq as -> ->. rewrite decide_True by done. set_solver.
      * case_decide as Hd; [subst ty'|by auto].
        apply Hh in Hq. rewrite Hiu in Hq. set_solver.
  - (* Release *)
    destruct (_release_port p ty (p_used s)) as [u'|e] eqn:Hr; [|by split].
    apply release_Ok in Hr as (used & Hu & ->).
    assert (in_use ty (p_used s) = used) as Hiu by (unfold in_use; by rewrite Hu).
    split; simpl.
    + intros ty' Hty'. rewrite lookup_insert. case_decide; eauto.
    + intros ty'. rewrite in_use_insert. case_decide as Hd; [subst ty'|done].
      specialize (Hs ty). rewrite Hiu in Hs. set_solver.
    + by apply NoDup_filter.
    + intros ty' q [Hne Hq]%list_elem_of_filter. rewrite in_use_insert.
      case_decide as Hd; [subst ty'|by auto].
      apply Hh in Hq. rewrite Hiu in Hq.
      assert (q ≠ p) by congruence. set_solver.
Qed.

Lemma pools_inv_run ops s : pools_inv s → pools_inv (run ops s).
Proof.
  revert s. induction ops as [|op ops IH]; intros s Hs; [done|].
  simpl. apply IH. by apply pools_inv_step.
Qed.

(** C1. Port allocation is exclusive.  After every sequence of set-up,
    allocate and release operations on the pools of a fresh manager: the
    ports issued and not yet returned are pairwise distinct (within a pool
    and across the two pools) and in use; the
    available set and the in-use set of each pool are disjoint and together
    make up the pool; an allocation that succeeds returns a port of the
    pool's range that was available (so not in use), adds exactly that port
    to the in-use set of its pool and leaves the other pool alone; and an
    allocation fails exactly when the available set is empty. *)
Theorem allocate_port_exclusive (ops : list pool_op) :
  let s := run ops init_pools in
  NoDup (p_held s) ∧ NoDup (p_held s).*2 ∧
  (∀ ty p, (ty, p) ∈ p_held s → p ∈ in_use ty (p_used s)) ∧
  (∀ ty, available ty (p_used s) ## in_use ty (p_used s) ∧
         available ty (p_used s) ∪ in_use ty (p_used s) = pool_of ty) ∧
  (∀ rng ty, ty ∈ ["vnc"; "adb"] →
     match _allocate_port rng ty (p_used s) with
     | Ok (p, u') =>
         p ∈ pool_of ty ∧ p ∈ available ty (p_used s) ∧
         p ∉ in_use ty (p_used s) ∧
         in_use ty u' = {[p]} ∪ in_use ty (p_used s) ∧
         (∀ ty', ty' ≠ ty → in_use ty' u' = in_use ty' (p_used s)) ∧
         available ty (p_used s) ≠ ∅
     | Raise e =>
         available ty (p_used s) = ∅ ∧
         e = mkExn PyException ("No available " ++ ty ++ " ports")
     end).
Proof.
  intros s. destruct (pools_inv_run ops init_pools pools_inv_init) as [Hk Hs Hn Hh].
  fold s in Hk, Hs, Hn, Hh.
  split; [done|]. split.
  { apply NoDup_fmap_2_strong; [|done].
    intros [ty1 p1] [ty2 p2] H1 H2 Heq. simpl in Heq. subst p2. f_equal.
    apply Hh, Hs in H1. apply Hh, Hs in H2. by eapply pool_of_disjoint. }
  split; [done|]. split.
  - intros ty. split; [unfold available; set_solver|].
    unfold available. apply set_eq. intros x. specialize (Hs ty x).
    rewrite elem_of_union, elem_of_difference.
    destruct (decide (x ∈ in_use ty (p_used s))); naive_solver.
  - intros rng ty Hty.
    assert (is_Some (port_pool !! ty)) as Hpool.
    { apply pool_keys. set_solver. }
    destruct (Hk ty Hpool) as [used Hu].
    destruct (_allocate_port rng ty (p_used s)) as [[p u']|e] eqn:Ha.
    + apply allocate_Ok in Ha as (pool & used' & Hp & Hu' & Hin & Hnin & ->).
      assert (used' = used) as -> by congruence.
      assert (in_use ty (p_used s) = used) as Hiu by (unfold in_use; by rewrite Hu).
      assert (pool_of ty = pool) as Hpo by (unfold pool_of; by rewrite Hp).
      unfold available. rewrite Hiu, Hpo.
      assert (p ∈ pool ∖ used) as Hav by (by apply elem_of_difference).
      repeat split; try done.
      * by rewrite in_use_insert, decide_True.
      * intros ty' Hne. rewrite in_use_insert. by rewrite decide_False.
      * intros Hemp. rewrite Hemp in Hav. by apply not_elem_of_empty in Hav.
    + by eapply allocate_Raise.
Qed.

(** *** Roll-back of the reservations in [create_container] *)

Lemma release_after_allocate rng ty u p u1 :
  _allocate_port rng ty u = Ok (p, u1) → _release_port p ty u1 = Ok u.
Proof.
  intros (pool & used & Hp & Hu & Hin & Hnin & ->)%allocate_Ok.
  unfold _release_port, getitem, mbind, result_bind.
  rewrite lookup_insert_eq. f_equal.
  rewrite insert_insert_eq.
  replace (({[p]} ∪ used) ∖ {[p]}) with used by set_solver.
  by apply insert_id.
Qed.

Lemma allocate_other_key rng ty u p u1 ty' :
  _allocate_port rng ty u = Ok (p, u1) → ty' ≠ ty → u1 !! ty' = u !! ty'.
Proof.
  intros (pool & used & Hp & Hu & Hin & Hnin & ->)%allocate_Ok Hne.
  by rewrite lookup_insert_ne.
Qed.

Lemma release_allocate_commute rng ty u p u1 q ty' u2 :
  ty' ≠ ty →
  _allocate_port rng ty u1 = Ok (p, u2) →
  _release_port q ty' u1 = Ok u →
  _release_port q ty' u2 = Ok (<[ty := default ∅ (u2 !! ty)]> u).
Proof.
  intros Hne (pool & used & Hp & Hu & Hin & Hnin & ->)%allocate_Ok
    (used' & Hu' & ->)%release_Ok.
  unfold _release_port, getitem, mbind, result_bind.
  rewrite lookup_insert_ne by done. rewrite Hu'. f_equal.
  rewrite lookup_insert_eq. simpl. by apply insert_insert_ne.
Qed.

(** C3. In [create_container] both ports are reserved before the sandbox is
    created, and a failure after both reservations gives both back.  When
    the version is supported and both allocations succeed: if the call
    fails, the exception reported is the wrapped one, no container was
    created and the in-use sets are those before the call; if it succeeds,
    the container was created with the two ports, which were free before
    the call and are in use after it. *)
Theorem create_container_rollback (env : create_env) (name ver : string)
    (net : bool) (m : manager) (vnc adb : Z) (u1 u2 : gmap string (gset Z)) :
  is_Some (redroid_images !! ver) →
  _allocate_port (rng_vnc env) "vnc" (used_ports m) = Ok (vnc, u1) →
  _allocate_port (rng_adb env) "adb" u1 = Ok (adb, u2) →
  match create_container env name ver net m with
  | (Raise e, m') =>
      used_ports m' = used_ports m ∧ containers m' = containers m ∧
      ∃ e0, e = mkExn PyException ("Container creation failed: " ++ exn_str e0) ∧
        (build_environment env = Raise e0 ∨ makedirs env = Raise e0 ∨
         build_config env = Raise e0 ∨ docker_create env = Raise e0)
  | (Ok info, m') =>
      info_vnc_port info = vnc ∧ info_adb_port info = adb ∧
      vnc ∉ in_use "vnc" (used_ports m) ∧ adb ∉ in_use "adb" (used_ports m) ∧
      vnc ∈ in_use "vnc" (used_ports m') ∧ adb ∈ in_use "adb" (used_ports m') ∧
      ∃ c, containers m' = <[info_container_id info := c]> (containers m) ∧
           c_port_bindings c = [("5555/tcp", adb); ("5900/tcp", vnc)]
  end.
Proof.
  intros [image Himg] Hv Ha.
  assert (_release_port vnc "vnc" u2 = Ok (<["adb" := default ∅ (u2 !! "adb")]> (used_ports m)))
    as Hrv.
  { eapply release_allocate_commute; [done|exact Ha|]. by eapply release_after_allocate. }
  assert (_release_port adb "adb" (<["adb" := default ∅ (u2 !! "adb")]> (used_ports m))
          = Ok (used_ports m)) as Hra.
  { pose proof Ha as (pool & used & Hp & Hu & Hin & Hnin & ->)%allocate_Ok.
    rewrite lookup_insert_eq. simpl.
    unfold _release_port, getitem, mbind, result_bind.
    rewrite lookup_insert_eq. f_equal. rewrite insert_insert_eq.
    replace (({[adb]} ∪ used) ∖ {[adb]}) with used by set_solver.
    apply insert_id. rewrite <- Hu. symmetry. by eapply allocate_other_key. }
  assert (∀ e0, create_container_except e0 (mkLocals (Some vnc) (Some adb))
                  (mkManager u2 (containers m))
                = (Raise (mkExn PyException ("Container creation failed: " ++ exn_str e0)),
                   mkManager (used_ports m) (containers m))) as Hex.
  { intros e0. unfold create_container_except. simpl. rewrite Hrv. simpl. by rewrite Hra. }
  unfold create_container, create_container_try. rewrite Himg, Hv, Ha.
  destruct (build_environment env) as [[]|e1] eqn:H1;
    [|rewrite Hex; simpl; eauto 10].
  destruct (makedirs env) as [[]|e2] eqn:H2; [|rewrite Hex; simpl; eauto 10].
  destruct (build_config env) as [[]|e3] eqn:H3; [|rewrite Hex; simpl; eauto 10].
  destruct (docker_create env) as [cid|e4] eqn:H4; [|rewrite Hex; simpl; eauto 10].
  simpl.
  pose proof Hv as (pv & uv & Hpv & Huv & Hinv & Hninv & ->)%allocate_Ok.
  pose proof Ha as (pa & ua & Hpa & Hua & Hina & Hnina & ->)%allocate_Ok.
  rewrite lookup_insert_ne in Hua by done.
  repeat split.
  - unfold in_use. by rewrite Huv.
  - unfold in_use. by rewrite Hua.
  - rewrite in_use_insert, decide_False by done.
    rewrite in_use_insert, decide_True by done.
    apply elem_of_union. left. by apply elem_of_singleton.
  - rewrite in_use_insert, decide_True by done.
    apply elem_of_union. left. by apply elem_of_singleton.
  - eauto.
Qed.

(** The reservations are rolled back when the daemon refuses to create
    the container. *)
Lemma create_container_rollback_witness :
  let env := mkCreateEnv 3 250 (Ok ()) (Ok ()) (Ok ())
               (Raise (mkExn PyException "409 Conflict")) in
  let m := mkManager init_used_ports ∅ in
  match create_container env "android-1a2b3c4d" "13" false m with
  | (Raise e, m') =>
      used_ports m' = used_ports m ∧ containers m' = containers m ∧
      ∃ e0, e = mkExn PyException ("Container creation failed: " ++ exn_str e0) ∧
        (build_environment env = Raise e0 ∨ makedirs env = Raise e0 ∨
         build_config env = Raise e0 ∨ docker_create env = Raise e0)
  | (Ok info, m') =>
      info_vnc_port info = 5999 ∧ info_adb_port info = 5630 ∧
      5999 ∉ in_use "vnc" (used_ports m) ∧ 5630 ∉ in_use "adb" (used_ports m) ∧
      5999 ∈ in_use "vnc" (used_ports m') ∧ 5630 ∈ in_use "adb" (used_ports m') ∧
      ∃ c, containers m' = <[info_container_id info := c]> (containers m) ∧
           c_port_bindings c = [("5555/tcp", 5630); ("5900/tcp", 5999)]
  end.
Proof.
  intros env m.
  apply (create_container_rollback env "android-1a2b3c4d" "13" false m 5999 5630
           (<["vnc" := {[5999]}]> init_used_ports)
           (<["adb" := {[5630]}]> (<["vnc" := {[5999]}]> init_used_ports))).
  - vm_compute. eauto.
  - vm_compute. reflexivity.
  - vm_compute. reflexivity.
Defined.

End PortPools.

(** ** The lifecycle service *)

Section LifecycleService.
Import Lifecycle Examples.

(** What an orchestrator call leaves alone, and the one call it logs. *)
Ltac orchestrator_call f :=
  unfold f, get_container; intros;
  repeat (case_match; simpl in *; simplify_eq); done.

Lemma start_container_frame e cid w :
  let w' := (start_container e cid w).2 in
  db w' = db w ∧ now w' = now w ∧ calls w' = (calls w ++ [OrchStart cid])%list ∧
  RedroidManager.used_ports (redroid w') = RedroidManager.used_ports (redroid w).
Proof. orchestrator_call start_container. Qed.

Lemma stop_container_frame e cid w :
  let w' := (stop_container e cid w).2 in
  db w' = db w ∧ now w' = now w ∧ calls w' = (calls w ++ [OrchStop cid])%list ∧
  RedroidManager.used_ports (redroid w') = RedroidManager.used_ports (redroid w).
Proof. orchestrator_call stop_container. Qed.

Lemma remove_container_frame e cid w :
  let w' := (remove_container e cid w).2 in
  db w' = db w ∧ now w' = now w ∧ calls w' = (calls w ++ [OrchRemove cid])%list ∧
  RedroidManager.used_ports (redroid w') = RedroidManager.used_ports (redroid w).
Proof. orchestrator_call remove_container. Qed.

#[local] Arguments start_container : simpl never.
#[local] Arguments stop_container : simpl never.
#[local] Arguments remove_container : simpl never.

(** *** What the provisioning task records *)



(** *** Deleting an instance *)

(** No path of [delete_instance] touches the in-use sets. *)
Lemma delete_instance_used_ports e id w :
  RedroidManager.used_ports (redroid (delete_instance e id w).2)
  = RedroidManager.used_ports (redroid w).
Proof.
  unfold delete_instance. destruct (db w !! id) as [instance|]; [|done].
  destruct (container_id instance) as [cid|].
  - destruct (remove_container_frame e (Some cid) w) as (_ & _ & _ & Hu).
    by destruct (redis_delete e).
  - by destruct (redis_delete e).
Qed.

(** The manager's own [remove_container] does give the ports of the
    bindings back. *)
Example redroid_remove_container_releases :
  let r := RedroidManager.remove_container (Ok ()) "c0ffee" (redroid provisioned) in
  r.1 = true ∧
  RedroidManager.in_use "vnc" (RedroidManager.used_ports r.2) = ∅ ∧
  RedroidManager.in_use "adb" (RedroidManager.used_ports r.2) = ∅.
Proof. vm_compute. repeat split; reflexivity. Qed.

(** C2. Deleting an instance should release both of its ports; the code
    does not.  Deleting the instance that was provisioned in
    [provisioned] succeeds, removes the row and the container, and leaves
    5999 and 5630 in use; deleting the instance whose provisioning failed
    after the sandbox was created ([half_provisioned]) succeeds, leaves the
    two ports in use and leaves the container with the daemon, since the
    row never received the container's id. *)
Theorem delete_instance_keeps_ports_in_use :
  let r := delete_instance fair_weather "7f3a9c1e-0000" provisioned in
  let r' := delete_instance fair_weather "7f3a9c1e-0000" half_provisioned in
  (r.1 = Ok "deleted" ∧ db r.2 = ∅ ∧
   RedroidManager.containers (redroid r.2) = ∅ ∧
   RedroidManager.in_use "vnc" (RedroidManager.used_ports (redroid r.2)) = {[5999]} ∧
   RedroidManager.in_use "adb" (RedroidManager.used_ports (redroid r.2)) = {[5630]}) ∧
  (r'.1 = Ok "deleted" ∧ db r'.2 = ∅ ∧
   c_port_bindings <$> RedroidManager.containers (redroid r'.2) !! "c0ffee"
     = Some [("5555/tcp", 5630); ("5900/tcp", 5999)] ∧
   RedroidManager.in_use "vnc" (RedroidManager.used_ports (redroid r'.2)) = {[5999]} ∧
   RedroidManager.in_use "adb" (RedroidManager.used_ports (redroid r'.2)) = {[5630]}).
Proof. vm_compute. repeat split; reflexivity. Qed.

(** *** Starting and stopping *)

Lemma start_instance_running e id w instance :
  db w !! id = Some instance → status instance = "running" →
  start_instance e id w = (Ok "already_running", w).
Proof.
  intros Hrow Hst. unfold start_instance. rewrite Hrow. by rewrite decide_True.
Qed.

Lemma start_instance_not_running e id w instance :
  db w !! id = Some instance → status instance ≠ "running" →
  ∃ w', start_instance e id w = (Ok "started", w') ∧
    calls w' = (calls w ++ [OrchStart (container_id instance)])%list ∧
    RedroidManager.used_ports (redroid w') = RedroidManager.used_ports (redroid w) ∧
    db w' = <[id := set_last_heartbeat (now w) (set_started_at (now w)
                      (set_status "running" instance))]> (db w).
Proof.
  intros Hrow Hst. unfold start_instance. rewrite Hrow. rewrite decide_False by done.
  destruct (start_container_frame e (container_id instance) w) as (Hdb & Hnow & Hc & Hu).
  eexists. split; [done|]. simpl. by rewrite Hdb, Hnow, Hc.
Qed.

Lemma stop_instance_any e id w instance :
  db w !! id = Some instance →
  ∃ w', stop_instance e id w = (Ok "stopped", w') ∧
    calls w' = (calls w ++ [OrchStop (container_id instance)])%list ∧
    now w' = now w ∧
    RedroidManager.used_ports (redroid w') = RedroidManager.used_ports (redroid w) ∧
    db w' = <[id := set_stopped_at (now w) (set_status "stopped" instance)]> (db w).
Proof.
  intros Hrow. unfold stop_instance. rewrite Hrow.
  destruct (stop_container_frame e (container_id instance) w) as (Hdb & Hnow & Hc & Hu).
  eexists. split; [done|]. simpl. by rewrite Hdb, Hnow, Hc.
Qed.

(** C8. Stopping a stopped instance should change nothing; in the code
    [stop_instance] is not a no-op on a stopped instance ([start_instance]
    does return early, see [start_instance_running]).  The instance of [stopped_later] is in state
    [stopped] since 1070; stopping it again 60 seconds later calls the
    orchestrator's [stop_container] and moves [stopped_at] to 1130. *)
Theorem stop_instance_when_stopped :
  let w := stopped_later in
  let r := stop_instance fair_weather "7f3a9c1e-0000" w in
  status <$> db w !! "7f3a9c1e-0000" = Some "stopped" ∧
  stopped_at <$> db w !! "7f3a9c1e-0000" = Some (Some 1070) ∧
  calls w = [] ∧
  r.1 = Ok "stopped" ∧
  calls r.2 = [OrchStop (Some "c0ffee")] ∧
  status <$> db r.2 !! "7f3a9c1e-0000" = Some "stopped" ∧
  stopped_at <$> db r.2 !! "7f3a9c1e-0000" = Some (Some 1130).
Proof. vm_compute. repeat split; reflexivity. Qed.

(** *** Restarting *)

(** C9, as stated, fails: restarting the running instance of [live_world]
    stops and starts its container and never enters the creation sequence
    (no call to the Redroid manager or to the configurator). *)
Lemma restart_instance_does_not_recreate :
  let r := restart_instance fair_weather "7f3a9c1e-0000" live_world in
  r.1 = Ok "restarted" ∧
  calls r.2 = [OrchStop (Some "c0ffee"); Sleep 2; OrchStart (Some "c0ffee")] ∧
  ¬ (∃ name, RedroidCreate name ∈ calls r.2 ∨ ConfigureInstance name ∈ calls r.2).
Proof.
  vm_compute. repeat split.
  intros (name & [H|H]);
    repeat (apply elem_of_cons in H as [H|H]; [discriminate H|]);
    by apply elem_of_nil in H.
Qed.

(** C9, amended. [restart_instance] on an instance that has its row stops
    the instance, pauses two seconds and starts the same container; it does
    not run the creation sequence and reserves no port.  The row keeps its
    id, its stored specification, its container and its ports, and ends in
    state [running]. *)
Theorem restart_instance_stop_sleep_start (e : env) (id : string) (w : world)
    (instance : AndroidInstance) :
  db w !! id = Some instance →
  ∃ w' instance',
    restart_instance e id w = (Ok "restarted", w') ∧
    calls w' = (calls w ++ [OrchStop (container_id instance); Sleep 2;
                            OrchStart (container_id instance)])%list ∧
    RedroidManager.used_ports (redroid w') = RedroidManager.used_ports (redroid w) ∧
    db w' !! id = Some instance' ∧
    instance_id instance' = instance_id instance ∧
    spec_of instance' = spec_of instance ∧
    container_id instance' = container_id instance ∧
    vnc_port instance' = vnc_port instance ∧
    adb_port instance' = adb_port instance ∧
    status instance' = "running".
Proof.
  intros Hrow. unfold restart_instance.
  destruct (stop_instance_any e id w instance Hrow)
    as (w1 & -> & Hc1 & Hn1 & Hu1 & Hdb1).
  set (stopped := set_stopped_at (now w) (set_status "stopped" instance)) in *.
  assert (db (sleep 2 w1) !! id = Some stopped) as Hrow2.
  { simpl. rewrite Hdb1. by rewrite lookup_insert_eq. }
  destruct (start_instance_not_running e id (sleep 2 w1) stopped Hrow2)
    as (w2 & Hs & Hc2 & Hu2 & Hdb2); [done|].
  rewrite Hs. eexists w2, _. split; [done|].
  split. { rewrite Hc2. simpl. rewrite Hc1. by rewrite <- !app_assoc. }
  split. { by rewrite Hu2. }
  split. { rewrite Hdb2. by rewrite lookup_insert_eq. }
  done.
Qed.

Lemma restart_instance_stop_sleep_start_witness :
  ∃ w' instance',
    restart_instance fair_weather "7f3a9c1e-0000" live_world = (Ok "restarted", w') ∧
    calls w' = (calls live_world ++
      [OrchStop (container_id (set_container "c0ffee" 5999 5630 pending)); Sleep 2;
       OrchStart (container_id (set_container "c0ffee" 5999 5630 pending))])%list ∧
    RedroidManager.used_ports (redroid w')
      = RedroidManager.used_ports (redroid live_world) ∧
    db w' !! "7f3a9c1e-0000" = Some instance' ∧
    instance_id instance' = instance_id pending ∧
    spec_of instance' = spec_of pending ∧
    container_id instance' = Some "c0ffee" ∧
    vnc_port instance' = Some 5999 ∧
    adb_port instance' = Some 5630 ∧
    status instance' = "running".
Proof.
  apply (restart_instance_stop_sleep_start fair_weather "7f3a9c1e-0000" live_world
    (set_last_heartbeat 1010 (set_started_at 1010 (set_status "running"
       (set_container "c0ffee" 5999 5630 pending))))).
  vm_compute. reflexivity.
Defined.

(** *** The health sweep *)

Section SweepProps.
Variable check : option string → result bool.

(** The loop over a list of rows with distinct keys. *)
Lemma sweep_loop (rows : list (string * AndroidInstance)) (w : world) :
  NoDup rows.*1 →
  let w' := foldl (sweep_visit check) w rows in
  now w' = now w ∧ redroid w' = redroid w ∧
  calls w' = (calls w ++ ((λ kv, OrchCheckHealth (container_id kv.2)) <$> rows))%list ∧
  ∀ id, db w' !! id =
          match (list_to_map rows : gmap string AndroidInstance) !! id with
          | Some instance => Some (sweep_row check (now w) instance)
          | None => db w !! id
          end.
Proof.
  revert w. induction rows as [|[k instance] rows IH]; intros w Hnd; simpl.
  { split; [done|]. split; [done|]. split; [by rewrite app_nil_r|done]. }
  apply NoDup_cons in Hnd as [Hk Hnd].
  destruct (IH (sweep_visit check w (k, instance)) Hnd) as (Hnow & Hred & Hcalls & Hdb).
  split; [by rewrite Hnow|]. split; [by rewrite Hred|].
  split. { rewrite Hcalls. simpl. by rewrite <- app_assoc. }
  intros id. rewrite Hdb. simpl.
  destruct (decide (k = id)) as [->|Hne].
  - rewrite lookup_insert_eq.
    rewrite (not_elem_of_list_to_map_1 _ id Hk). by rewrite lookup_insert_eq.
  - rewrite !lookup_insert_ne by done. done.
Qed.

Lemma running_rows_NoDup (d : gmap string AndroidInstance) :
  NoDup (filter (λ kv, status kv.2 = "running") (map_to_list d)).*1.
Proof.
  eapply sublist_NoDup; [apply (NoDup_fst_map_to_list d)|].
  apply fmap_sublist, sublist_filter.
Qed.

Lemma running_rows_lookup (d : gmap string AndroidInstance) id :
  (list_to_map (filter (λ kv, status kv.2 = "running") (map_to_list d))
     : gmap string AndroidInstance) !! id
  = match d !! id with
    | Some instance =>
        if decide (status instance = "running") then Some instance else None
    | None => None
    end.
Proof.
  pose proof (running_rows_NoDup d) as Hnd.
  destruct (list_to_map _ !! id) as [instance|] eqn:Hl.
  - apply elem_of_list_to_map in Hl; [|done].
    apply list_elem_of_filter in Hl as [Hst Hin]. simpl in Hst.
    apply elem_of_map_to_list in Hin. rewrite Hin. by rewrite decide_True.
  - destruct (d !! id) as [instance|] eqn:Hd; [|done].
    case_decide as Hst; [|done].
    apply not_elem_of_list_to_map in Hl. exfalso. apply Hl.
    apply list_elem_of_fmap. exists (id, instance). split; [done|].
    apply list_elem_of_filter. split; [done|]. by apply elem_of_map_to_list.
Qed.

(** C5, amended. One sweep of [check_instance_health], for any behaviour
    of the health check: for every row in state [running] the check is
    called on its container; if the check answers healthy the row's last
    heartbeat becomes the current time and nothing else changes; if it
    answers unhealthy the row ends in state [failed] with the message
    [Container health check failed]; if it raises, the row ends in state
    [failed] with the exception's text, and the other rows are processed
    all the same.  Rows in another state are left as they are, the sweep
    makes no call other than health checks (in particular it never
    restarts, stops or starts a container) and leaves the manager and
    the daemon alone. *)
Theorem health_sweep_marks_failed (w : world) :
  let w' := check_instance_health check w in
  (∀ id instance, db w !! id = Some instance → status instance = "running" →
     OrchCheckHealth (container_id instance) ∈ calls w' ∧
     ∃ instance', db w' !! id = Some instance' ∧
       match check (container_id instance) with
       | Ok true => instance' = set_last_heartbeat (now w) instance
       | Ok false =>
           status instance' = "failed" ∧
           error_message instance' = Some "Container health check failed" ∧
           last_heartbeat instance' = last_heartbeat instance
       | Raise x =>
           status instance' = "failed" ∧
           error_message instance' = Some (exn_str x) ∧
           last_heartbeat instance' = last_heartbeat instance
       end) ∧
  (∀ id instance, db w !! id = Some instance → status instance ≠ "running" →
     db w' !! id = Some instance) ∧
  (∀ id, db w !! id = None → db w' !! id = None) ∧
  (∀ c, c ∈ calls w' → c ∈ calls w ∨ ∃ cid, c = OrchCheckHealth cid) ∧
  redroid w' = redroid w.
Proof.
  intros w'.
  destruct (sweep_loop (filter (λ kv, status kv.2 = "running") (map_to_list (db w)))
              w (running_rows_NoDup (db w))) as (Hnow & Hred & Hcalls & Hdb).
  change (foldl (sweep_visit check) w _) with w' in Hnow, Hred, Hcalls.
  assert (∀ id, db w' !! id =
            match db w !! id with
            | Some instance =>
                if decide (status instance = "running")
                then Some (sweep_row check (now w) instance) else Some instance
            | None => None
            end) as Hrows.
  { intros id. etrans; [apply Hdb|]. rewrite running_rows_lookup.
    destruct (db w !! id) as [instance|]; [|done]. by case_decide. }
  clear Hdb. split; [|split; [|split; [|split]]].
  - intros id instance Hrow Hst. split.
    + rewrite Hcalls. apply elem_of_app. right.
      apply list_elem_of_fmap. exists (id, instance). split; [done|].
      apply list_elem_of_filter. split; [done|]. by apply elem_of_map_to_list.
    + rewrite Hrows, Hrow. rewrite decide_True by done.
      eexists. split; [done|]. unfold sweep_row.
      by destruct (check (container_id instance)) as [[]|x].
  - intros id instance Hrow Hst. rewrite Hrows, Hrow. by rewrite decide_False.
  - intros id Hrow. by rewrite Hrows, Hrow.
  - intros c Hc. rewrite Hcalls in Hc. apply elem_of_app in Hc as [Hc|Hc]; [by left|].
    right. apply list_elem_of_fmap in Hc as (kv & -> & _). eauto.
  - done.
Qed.
End SweepProps.

(** C5, as stated, fails: in [live_world] the instance is running and its
    health probe exits with 1; the sweep calls the health check, marks the
    instance [failed] and calls nothing else, so no restart is invoked on
    it (the service has no restart policy to consult). *)
Lemma health_sweep_does_not_restart :
  let w' := check_instance_health_service probe_fails live_world in
  status <$> db live_world !! "7f3a9c1e-0000" = Some "running" ∧
  check_container_health probe_fails (Some "c0ffee") live_world = false ∧
  calls w' = [OrchCheckHealth (Some "c0ffee")] ∧
  status <$> db w' !! "7f3a9c1e-0000" = Some "failed" ∧
  ¬ (∃ cid, OrchRestart cid ∈ calls w' ∨ OrchStop cid ∈ calls w' ∨
            OrchStart cid ∈ calls w').
Proof.
  vm_compute. repeat split.
  intros (cid & [H|[H|H]]);
    repeat (apply elem_of_cons in H as [H|H]; [discriminate H|]);
    by apply elem_of_nil in H.
Qed.

End LifecycleService.

(** ** The network isolator *)

Section IsolatorProps.
Import NetworkIsolator.
Context `{Host}.
#[local] Open Scope list_scope.

Lemma run_launched check program args st :
  launches_program program →
  ∃ rc h,
    execute (program :: args) (host st) = (Completed rc, h) ∧
    run check (program :: args) st =
      (if check && bool_decide (rc ≠ 0)
       then Raise (called_process_error (program :: args) rc) else Ok rc,
       mkIsolator (active_namespaces st) h
         (runs st ++ [(program :: args, check, Completed rc)])).
Proof.
  intros Hl. specialize (Hl args (host st)). unfold run.
  destruct (execute (program :: args) (host st)) as [[rc|] h]; [|done].
  exists rc, h. split; [done|]. by destruct (check && bool_decide (rc ≠ 0)).
Qed.

Lemma run_logs check argv st :
  active_namespaces (run check argv st).2 = active_namespaces st ∧
  ∃ outcome, runs (run check argv st).2 = runs st ++ [(argv, check, outcome)].
Proof.
  unfold run. destruct (execute argv (host st)) as [[rc|] h]; simpl.
  - destruct (check && bool_decide (rc ≠ 0)); simpl; eauto.
  - eauto.
Qed.


Lemma unchecked_refl st : unchecked_calls_only st st.
Proof.
  split; [done|]. exists []. split; [by rewrite app_nil_r|].
  intros ?? Hin. by apply elem_of_nil in Hin.
Qed.

Lemma unchecked_trans st1 st2 st3 :
  unchecked_calls_only st1 st2 → unchecked_calls_only st2 st3 →
  unchecked_calls_only st1 st3.
Proof.
  intros [Ha1 (n1 & Hr1 & Hu1)] [Ha2 (n2 & Hr2 & Hu2)].
  split; [congruence|]. exists (n1 ++ n2). split.
  - rewrite Hr2, Hr1. by rewrite app_assoc.
  - intros a o [Hin|Hin]%elem_of_app; [by eapply Hu1|by eapply Hu2].
Qed.

Lemma run_unchecked argv st : unchecked_calls_only st (run false argv st).2.
Proof.
  destruct (run_logs false argv st) as [Ha [o Hr]].
  split; [done|]. exists [(argv, false, o)]. split; [done|].
  intros a o' Hin. apply list_elem_of_singleton in Hin. congruence.
Qed.

Lemma run_each_unchecked steps st :
  (∀ check argv, (check, argv) ∈ steps → check = false) →
  unchecked_calls_only st (run_each steps st).2.
Proof.
  revert st. induction steps as [|[check argv] steps IH]; intros st Hall; simpl.
  { apply unchecked_refl. }
  assert (check = false) as -> by (eapply Hall; by apply elem_of_cons; left).
  unfold bind. pose proof (run_unchecked argv st) as Hrun.
  destruct (run false argv st) as [[rc|x] st1]; simpl in *; [|done].
  eapply unchecked_trans; [exact Hrun|]. apply IH.
  intros c a Hin. eapply Hall. by apply elem_of_cons; right.
Qed.

(** The loop of [_setup_default_iptables] never raises. *)
Lemma for_each_passing_spec commands st :
  (for_each_passing commands st).1 = Ok () ∧
  unchecked_calls_only st (for_each_passing commands st).2.
Proof.
  revert st. induction commands as [|cmd commands IH]; intros st; simpl.
  { split; [done|apply unchecked_refl]. }
  unfold bind at 1 3. unfold try_except, bind, ret.
  pose proof (run_unchecked cmd st) as Hrun.
  destruct (run false cmd st) as [[rc|x] st1]; simpl in *;
    (split; [apply IH|eapply unchecked_trans; [exact Hrun|apply IH]]).
Qed.

Lemma run_each_cons check argv rest :
  run_each ((check, argv) :: rest) = bind (run check argv) (λ _, run_each rest).
Proof. reflexivity. Qed.

Lemma run_each_nil : run_each [] = ret ().
Proof. reflexivity. Qed.

#[local] Arguments run_each : simpl never.
#[local] Arguments for_each_passing : simpl never.

(** [_cleanup_namespace_iptables] never raises. *)
Lemma cleanup_spec namespace st :
  (_cleanup_namespace_iptables namespace st).1 = Ok () ∧
  unchecked_calls_only st (_cleanup_namespace_iptables namespace st).2.
Proof.
  unfold _cleanup_namespace_iptables, try_except, _setup_default_iptables.
  unfold bind.
  set (flushes := [(false, ["iptables"; "-F"; "FORWARD"]);
                   (false, ["iptables"; "-t"; "nat"; "-F"; "POSTROUTING"])]).
  assert (unchecked_calls_only st (run_each flushes st).2) as Hfl.
  { apply run_each_unchecked. intros c a Hin. subst flushes.
    repeat (apply elem_of_cons in Hin as [Hin|Hin]; [congruence|]).
    by apply elem_of_nil in Hin. }
  destruct (run_each flushes st) as [[[]|x] st1]; simpl in *; [|by split].
  destruct (for_each_passing_spec default_iptables_commands st1) as [Hok Hun].
  destruct (for_each_passing default_iptables_commands st1) as [[[]|x] st2];
    simpl in *; [|done].
  split; [done|]. by eapply unchecked_trans.
Qed.

(** [destroy_namespace] answers, it never raises. *)
Lemma destroy_namespace_answers namespace st :
  ∃ b, (destroy_namespace namespace st).1 = Ok b.
Proof.
  unfold destroy_namespace, try_except.
  destruct (bind _ _ st) as [[b|x] st1]; simpl; eauto.
Qed.

(** [destroy_namespace] on a machine that can launch [ip]. *)
Lemma destroy_namespace_spec namespace st :
  launches_program "ip" →
  let r := destroy_namespace namespace st in
  r.1 = Ok true ∧
  active_namespaces r.2 = active_namespaces st ∖ {[namespace]} ∧
  ∃ new, runs r.2 = runs st ++ new ∧
    ["ip"; "netns"; "delete"; namespace] ∈ commands_of new ∧
    ∀ argv outcome, (argv, true, outcome) ∉ new.
Proof.
  intros Hip r.
  destruct (cleanup_spec namespace st) as [Hok [Ha (n1 & Hr1 & Hu1)]].
  assert (∃ st1 rc1 rc2 h2,
    _cleanup_namespace_iptables namespace st = (Ok (), st1) ∧
    r = (Ok true,
         mkIsolator (active_namespaces st1 ∖ {[namespace]}) h2
           (runs st1 ++
            [(["ip"; "link"; "delete"; ("veth-" ++ first8 namespace)%string],
              false, Completed rc1)] ++
            [(["ip"; "netns"; "delete"; namespace], false, Completed rc2)])))
    as (st1 & rc1 & rc2 & h2 & Hcl & ->).
  { subst r. unfold destroy_namespace, try_except.
    rewrite !run_each_cons, run_each_nil. unfold bind, ret.
    destruct (_cleanup_namespace_iptables namespace st) as [[[]|x] st1];
      simpl in Hok; [|done].
    destruct (run_launched false "ip"
                ["link"; "delete"; ("veth-" ++ first8 namespace)%string] st1 Hip)
      as (rc1 & h1 & _ & ->).
    simpl.
    destruct (run_launched false "ip" ["netns"; "delete"; namespace]
                (mkIsolator (active_namespaces st1) h1
                   (runs st1 ++
                    [(["ip"; "link"; "delete"; ("veth-" ++ first8 namespace)%string],
                      false, Completed rc1)])) Hip)
      as (rc2 & h2 & _ & ->).
    simpl. exists st1, rc1, rc2, h2. split; [done|].
    by rewrite <- app_assoc. }
  rewrite Hcl in Ha, Hr1. simpl in *.
  split; [done|]. split; [by rewrite Ha|].
  eexists (n1 ++ [_; _]). split.
  { rewrite Hr1. rewrite <- !app_assoc. done. }
  split.
  - unfold commands_of. rewrite fmap_app. apply elem_of_app. right. simpl.
    apply elem_of_cons. right. by apply elem_of_cons; left.
  - intros a o [Hin|Hin]%elem_of_app; [by eapply Hu1|].
    repeat (apply elem_of_cons in Hin as [Hin|Hin]; [congruence|]).
    by apply elem_of_nil in Hin.
Qed.

(** C7. [destroy_namespace] is idempotent.  On a machine that can launch
    [ip], for every namespace name and every state of the isolator and the
    machine, whatever the exit status of each command: the call answers
    [True] and leaves the name out of the registry, which otherwise is as
    before (so unchanged for a name that was never registered or has been
    destroyed already); a second call answers the same and leaves the
    registry as the first call left it. *)
Theorem destroy_namespace_idempotent (namespace : string) (st : isolator) :
  launches_program "ip" →
  let once := destroy_namespace namespace st in
  let twice := destroy_namespace namespace once.2 in
  once.1 = Ok true ∧
  namespace ∉ active_namespaces once.2 ∧
  active_namespaces once.2 = active_namespaces st ∖ {[namespace]} ∧
  (namespace ∉ active_namespaces st →
   active_namespaces once.2 = active_namespaces st) ∧
  twice.1 = once.1 ∧
  active_namespaces twice.2 = active_namespaces once.2.
Proof.
  intros Hip once twice.
  destruct (destroy_namespace_spec namespace st Hip) as (Hr1 & Ha1 & _).
  destruct (destroy_namespace_spec namespace once.2 Hip) as (Hr2 & Ha2 & _).
  fold once in Hr1, Ha1. fold twice in Hr2, Ha2.
  rewrite Hr1, Hr2, Ha2, Ha1. repeat split; set_solver.
Qed.

(** *** Creation of a namespace *)








End IsolatorProps.

(** ** The isolator on the modelled machine *)

Section LinuxMachine.
Import NetworkIsolator Linux Examples.
#[local] Open Scope list_scope.

Lemma linux_launches_ip : launches_program (H := linux) "ip".
Proof. intros args h. simpl. unfold linux_execute. simpl. by destruct (ip args h). Qed.


(** [subprocess.run] of the two tools on this machine. *)
Lemma run_linux_iptables args (st : isolator (H := linux)) :
  run (H := linux) false ("iptables" :: args) st
  = (Ok (iptables args (host st)).1,
     mkIsolator (H := linux) (active_namespaces st) (iptables args (host st)).2
       (runs st ++ [("iptables" :: args, false, Completed (iptables args (host st)).1)])).
Proof.
  unfold run. simpl. unfold linux_execute. simpl. by destruct (iptables args (host st)).
Qed.

Lemma run_linux_ip args (st : isolator (H := linux)) :
  run (H := linux) false ("ip" :: args) st
  = (Ok (ip args (host st)).1,
     mkIsolator (H := linux) (active_namespaces st) (ip args (host st)).2
       (runs st ++ [("ip" :: args, false, Completed (ip args (host st)).1)])).
Proof.
  unfold run. simpl. unfold linux_execute. simpl. by destruct (ip args (host st)).
Qed.

Lemma ip_tables args k : tables (ip args k).2 = tables k.
Proof.
  unfold ip. repeat (case_match; simpl; try done).
Qed.

Lemma linux_execute_iptables args k :
  (linux_execute ("iptables" :: args) k).2 = (iptables args k).2.
Proof. unfold linux_execute. simpl. by destruct (iptables args k). Qed.

Lemma linux_execute_ip args k :
  (linux_execute ("ip" :: args) k).2 = (ip args k).2.
Proof. unfold linux_execute. simpl. by destruct (ip args k). Qed.

#[local] Arguments iptables : simpl never.
#[local] Arguments ip : simpl never.
#[local] Arguments linux_execute : simpl never.

Lemma destroy_namespace_linux namespace (st : isolator (H := linux)) :
  ∃ rs, destroy_namespace (H := linux) namespace st
        = (Ok true,
           mkIsolator (H := linux) (active_namespaces st ∖ {[namespace]})
             (machine_after_destroy namespace (host st)) rs).
Proof.
  unfold destroy_namespace, _cleanup_namespace_iptables, _setup_default_iptables,
    machine_after_destroy, default_iptables_commands, try_except.
  cbn [for_each_passing run_each app foldl].
  rewrite !linux_execute_iptables, !linux_execute_ip.
  unfold bind, ret, try_except.
  repeat (first [rewrite run_linux_iptables | rewrite run_linux_ip];
          cbv beta iota zeta; cbn [fst snd active_namespaces host runs]).
  eexists. reflexivity.
Qed.

(** *** The chains after a namespace is destroyed *)

Lemma iptables_flush_chain table name chains rules t :
  t !! table = Some chains → chains !! name = Some rules →
  iptables_in table ["-F"; name] t = (0, <[table := <[name := []]> chains]> t).
Proof. intros Ht Hc. unfold iptables_in. rewrite Ht. simpl. by rewrite Hc. Qed.

Lemma iptables_flush_table table chains t :
  t !! table = Some chains →
  iptables_in table ["-F"] t = (0, <[table := (λ _, []) <$> chains]> t).
Proof. intros Ht. unfold iptables_in. by rewrite Ht. Qed.

Lemma iptables_append table name rule chains rules t :
  t !! table = Some chains → chains !! name = Some rules →
  iptables_in table ("-A" :: name :: rule) t
  = (0, <[table := <[name := rules ++ [rule]]> chains]> t).
Proof. intros Ht Hc. unfold iptables_in. rewrite Ht. simpl. by rewrite Hc. Qed.

Lemma iptables_filter op operands k :
  op ≠ "-t" →
  iptables (op :: operands) k
  = ((iptables_in "filter" (op :: operands) (tables k)).1,
     mkKernel (netns k) (links k)
       (iptables_in "filter" (op :: operands) (tables k)).2).
Proof.
  intros Hop. unfold iptables, table_and_rest.
  destruct operands as [|o operands];
    [|rewrite decide_False by done];
    by destruct (iptables_in _ _ _).
Qed.

Lemma iptables_nat operation k :
  iptables ("-t" :: "nat" :: operation) k
  = ((iptables_in "nat" operation (tables k)).1,
     mkKernel (netns k) (links k) (iptables_in "nat" operation (tables k)).2).
Proof.
  unfold iptables, table_and_rest. rewrite decide_True by done.
  by destruct (iptables_in _ _ _).
Qed.

(** The two chains after the commands of [destroy_namespace]. *)
Lemma machine_after_destroy_chains namespace k :
  has_chains k →
  chain "filter" "FORWARD" (machine_after_destroy namespace k) = default_forward ∧
  chain "nat" "POSTROUTING" (machine_after_destroy namespace k) = default_postrouting.
Proof.
  intros [[rf Hrf] [rp Hrp]].
  destruct (tables k !! "filter") as [f|] eqn:Hf; [simpl in Hrf|done].
  destruct (tables k !! "nat") as [n|] eqn:Hn; [simpl in Hrp|done].
  unfold machine_after_destroy, default_iptables_commands.
  cbn [app foldl]. rewrite !linux_execute_iptables, !linux_execute_ip.
  unfold chain. rewrite !ip_tables.
  rewrite ?iptables_nat, ?(iptables_filter "-F"), ?(iptables_filter "-A") by done.
  cbn [fst snd tables].
  rewrite (iptables_flush_chain "filter" "FORWARD" f rf (tables k)) by done.
  cbn [snd].
  rewrite (iptables_flush_chain "nat" "POSTROUTING" n rp)
    by (by rewrite ?lookup_insert_ne).
  cbn [snd].
  erewrite (iptables_flush_table "nat"); [|by rewrite lookup_insert_eq].
  cbn [snd].
  erewrite (iptables_append "nat" "POSTROUTING");
    [|by rewrite lookup_insert_eq
     |by rewrite lookup_fmap, lookup_insert_eq].
  cbn [snd].
  erewrite (iptables_append "filter" "FORWARD"
              ["-i"; "docker0"; "-o"; "docker0"; "-j"; "ACCEPT"]);
    [|by rewrite !(lookup_insert_ne _ "nat" "filter"), lookup_insert_eq by done
     |by rewrite lookup_insert_eq].
  cbn [snd].
  erewrite (iptables_append "filter" "FORWARD" ["-s"; "172.20.0.0/16"; "-j"; "ACCEPT"]);
    [|by rewrite lookup_insert_eq|by rewrite lookup_insert_eq].
  cbn [snd].
  erewrite (iptables_append "filter" "FORWARD" ["-d"; "172.20.0.0/16"; "-j"; "ACCEPT"]);
    [|by rewrite lookup_insert_eq|by rewrite lookup_insert_eq].
  cbn [snd]. split.
  - rewrite lookup_insert_eq. simpl. by rewrite lookup_insert_eq.
  - rewrite !(lookup_insert_ne _ "filter" "nat") by done.
    rewrite lookup_insert_eq. simpl. by rewrite lookup_insert_eq.
Qed.

(** C10. Destroying one namespace clears the rules of all the others.  On
    the modelled machine, in every state that has the two chains: after
    [destroy_namespace] of any name, every other registered namespace is
    still registered, yet the FORWARD chain of the filter table and the
    POSTROUTING chain of the nat table hold the default rules only, so
    the three rules that [_setup_namespace_iptables] installed for another
    namespace's address are gone. *)
Theorem destroy_namespace_flushes_other_rules (namespace other ip_address : string)
    (st : isolator (H := linux)) :
  has_chains (host st) →
  other ∈ active_namespaces st → other ≠ namespace →
  ip_address ≠ "172.20.0.0/16"%string →
  let st' := (destroy_namespace (H := linux) namespace st).2 in
  other ∈ active_namespaces st' ∧
  chain "filter" "FORWARD" (host st') = default_forward ∧
  chain "nat" "POSTROUTING" (host st') = default_postrouting ∧
  forward_from ip_address ∉ chain "filter" "FORWARD" (host st') ∧
  forward_to ip_address ∉ chain "filter" "FORWARD" (host st') ∧
  masquerade ip_address ∉ chain "nat" "POSTROUTING" (host st').
Proof.
  intros Hch Hother Hne Hip st'.
  destruct (destroy_namespace_linux namespace st) as [rs Hd].
  subst st'. rewrite Hd. simpl.
  destruct (machine_after_destroy_chains namespace (host st) Hch) as [-> ->].
  split; [set_solver|]. split; [done|]. split; [done|].
  unfold default_forward, default_postrouting, forward_from, forward_to, masquerade.
  repeat split; intros Hin;
    repeat (apply elem_of_cons in Hin as [Hin|Hin]; [congruence|]);
    by apply elem_of_nil in Hin.
Qed.

(** Before the teardown, the chains of [two_namespaces] hold the rules of
    both namespaces. *)
Example two_namespaces_rules :
  active_namespaces two_namespaces = {[ "netns-a"%string; "netns-b"%string ]} ∧
  chain "filter" "FORWARD" (host two_namespaces)
    = [ forward_from "172.20.3.4"; forward_to "172.20.3.4";
        forward_from "172.20.7.9"; forward_to "172.20.7.9" ] ∧
  chain "nat" "POSTROUTING" (host two_namespaces)
    = [ masquerade "172.20.3.4"; masquerade "172.20.7.9" ].
Proof. vm_compute. repeat split; reflexivity. Qed.

Lemma two_namespaces_has_chains : has_chains (host two_namespaces).
Proof.
  split; vm_compute; eauto.
Qed.

(** Destroying the first of the two namespaces takes the rules of the
    second along. *)
Lemma destroy_namespace_flushes_other_rules_witness :
  let st' := (destroy_namespace (H := linux) "netns-a" two_namespaces).2 in
  "netns-b"%string ∈ active_namespaces st' ∧
  chain "filter" "FORWARD" (host st') = default_forward ∧
  chain "nat" "POSTROUTING" (host st') = default_postrouting ∧
  forward_from "172.20.7.9" ∉ chain "filter" "FORWARD" (host st') ∧
  forward_to "172.20.7.9" ∉ chain "filter" "FORWARD" (host st') ∧
  masquerade "172.20.7.9" ∉ chain "nat" "POSTROUTING" (host st').
Proof.
  apply (destroy_namespace_flushes_other_rules "netns-a" "netns-b"
           "172.20.7.9" two_namespaces).
  - apply two_namespaces_has_chains.
  - vm_compute. reflexivity.
  - discriminate.
  - discriminate.
Defined.

(** A second teardown of the first namespace of [two_namespaces]. *)
Lemma destroy_namespace_idempotent_witness :
  let once := destroy_namespace (H := linux) "netns-a" two_namespaces in
  let twice := destroy_namespace (H := linux) "netns-a" once.2 in
  once.1 = Ok true ∧
  "netns-a"%string ∉ active_namespaces once.2 ∧
  active_namespaces once.2 = active_namespaces two_namespaces ∖ {[ "netns-a"%string ]} ∧
  ("netns-a"%string ∉ active_namespaces two_namespaces →
   active_namespaces once.2 = active_namespaces two_namespaces) ∧
  twice.1 = once.1 ∧
  active_namespaces twice.2 = active_namespaces once.2.
Proof.
  apply (destroy_namespace_idempotent (H := linux) "netns-a" two_namespaces).
  apply linux_launches_ip.
Defined.



End LinuxMachine.



(** * Further properties of the modelled code *)

(** ** The Redroid manager *)

Section RedroidManagerMore.
Import RedroidManager.

Lemma allocate_vnc_range rng u p u1 :
  _allocate_port rng "vnc" u = Ok (p, u1) → 5900 ≤ p < 6000.
Proof.
  intros (pool & used & Hp & _ & Hin & _)%allocate_Ok.
  apply pool_of_vnc. unfold pool_of. by rewrite Hp.
Qed.

Lemma allocate_adb_range rng u p u1 :
  _allocate_port rng "adb" u = Ok (p, u1) → 5555 ≤ p < 5655.
Proof.
  intros (pool & used & Hp & _ & Hin & _)%allocate_Ok.
  apply pool_of_adb. unfold pool_of. by rewrite Hp.
Qed.

(** The handler of [create_container] always raises. *)
Lemma create_container_except_raises e l m :
  ∃ x m', create_container_except e l m = (Raise x, m').
Proof.
  unfold create_container_except.
  repeat (case_match; simpl; eauto).
Qed.

(** What [create_container] returns when it succeeds. *)
Lemma create_container_Ok env name ver net m info m' :
  create_container env name ver net m = (Ok info, m') →
  ∃ image u1,
    redroid_images !! ver = Some image ∧
    _allocate_port (rng_vnc env) "vnc" (used_ports m) = Ok (info_vnc_port info, u1) ∧
    _allocate_port (rng_adb env) "adb" u1 = Ok (info_adb_port info, used_ports m') ∧
    containers m' =
      <[info_container_id info :=
          mkContainer name image "created"
            [("5555/tcp", info_adb_port info); ("5900/tcp", info_vnc_port info)]
            (if net then Some "none" else None)]> (containers m).
Proof.
  unfold create_container.
  destruct (create_container_try env name ver net m) as [[[info0|x] l] m0] eqn:Htry.
  2:{ destruct (create_container_except_raises x l m0) as (y & m1 & ->). done. }
  intros [= -> ->]. revert Htry. unfold create_container_try.
  destruct (redroid_images !! ver) as [image|] eqn:Himg; [|done].
  destruct (_allocate_port (rng_vnc env) "vnc" (used_ports m)) as [[v u1]|x] eqn:Hv;
    [|done].
  destruct (_allocate_port (rng_adb env) "adb" u1) as [[a u2]|x] eqn:Ha; [|done].
  destruct (build_environment env) as [[]|x]; [|done].
  destruct (makedirs env) as [[]|x]; [|done].
  destruct (build_config env) as [[]|x]; [|done].
  destruct (docker_create env) as [cid|x]; [|done].
  intros [= <- <- <-]. simpl. exists image, u1. done.
Qed.

(** Releasing, in either order, the two ports that were just reserved
    gives the in-use sets back. *)
Lemma release_both_after_allocate rng1 rng2 u v u1 a u2 :
  _allocate_port rng1 "vnc" u = Ok (v, u1) →
  _allocate_port rng2 "adb" u1 = Ok (a, u2) →
  (∃ u', _release_port v "vnc" u2 = Ok u' ∧ _release_port a "adb" u' = Ok u) ∧
  (∃ u', _release_port a "adb" u2 = Ok u' ∧ _release_port v "vnc" u' = Ok u).
Proof.
  intros (pv & uv & _ & Huv & _ & Hnv & ->)%allocate_Ok
         (pa & ua & _ & Hua & _ & Hna & ->)%allocate_Ok.
  rewrite lookup_insert_ne in Hua by done.
  assert (({[v]} ∪ uv) ∖ {[v]} = uv) as Hv by set_solver.
  assert (({[a]} ∪ ua) ∖ {[a]} = ua) as Ha by set_solver.
  unfold _release_port, getitem, mbind, result_bind. split.
  - rewrite lookup_insert_ne, lookup_insert_eq by done. eexists. split; [done|].
    rewrite lookup_insert_ne, lookup_insert_eq by done.
    f_equal. rewrite Hv, Ha. apply map_eq. intros k.
    destruct (decide (k = "adb")) as [->|]; [by rewrite lookup_insert_eq|].
    rewrite lookup_insert_ne by done.
    destruct (decide (k = "vnc")) as [->|]; [by rewrite lookup_insert_eq|].
    by rewrite !lookup_insert_ne by done.
  - rewrite lookup_insert_eq. eexists. split; [done|].
    rewrite lookup_insert_ne, lookup_insert_ne, lookup_insert_eq by done.
    f_equal. rewrite Hv, Ha. apply map_eq. intros k.
    destruct (decide (k = "vnc")) as [->|]; [by rewrite lookup_insert_eq|].
    rewrite lookup_insert_ne by done.
    destruct (decide (k = "adb")) as [->|]; [by rewrite lookup_insert_eq|].
    by rewrite !lookup_insert_ne by done.
Qed.

(** X1. A container created by [create_container] and then removed by the
    manager's [remove_container] leaves the pools as they were before the
    creation: both ports are released and the container is gone. *)
Theorem create_then_remove_restores_ports (env : create_env) (name ver : string)
    (net : bool) (m m' : manager) (info : container_info) :
  create_container env name ver net m = (Ok info, m') →
  ∃ m'',
    remove_container (Ok ()) (info_container_id info) m' = (true, m'') ∧
    used_ports m'' = used_ports m ∧
    containers m'' = delete (info_container_id info) (containers m).
Proof.
  intros (image & u1 & Himg & Hv & Ha & Hc)%create_container_Ok.
  unfold remove_container. rewrite Hc, lookup_insert_eq. simpl.
  eexists. split; [done|]. simpl. split; [|by rewrite delete_insert_eq].
  pose proof (allocate_vnc_range _ _ _ _ Hv) as Hvr.
  pose proof (allocate_adb_range _ _ _ _ Ha) as Har.
  destruct (release_both_after_allocate _ _ _ _ _ _ _ Hv Ha)
    as [_ (u' & Hra & Hrv)].
  unfold release_binding. simpl.
  rewrite (decide_False (P := 5900 ≤ info_adb_port info < 6000)) by lia.
  rewrite (decide_True (P := 5555 ≤ info_adb_port info < 5655)) by done.
  rewrite Hra. rewrite (decide_True (P := 5900 ≤ info_vnc_port info < 6000)) by done.
  by rewrite Hrv.
Qed.

Lemma create_then_remove_restores_ports_witness :
  ∃ m'',
    remove_container (Ok ()) "c0ffee"
      (mkManager
         (<["adb" := {[5630]}]> (<["vnc" := {[5999]}]> init_used_ports))
         (<["c0ffee" := mkContainer "android-7f3a9c1e" "redroid/redroid:13.0.0-latest"
                          "created" [("5555/tcp", 5630); ("5900/tcp", 5999)] None]> ∅))
      = (true, m'') ∧
    used_ports m'' = init_used_ports ∧
    containers m'' = delete "c0ffee" ∅.
Proof.
  apply (create_then_remove_restores_ports
           (mkCreateEnv 3 250 (Ok ()) (Ok ()) (Ok ()) (Ok "c0ffee"))
           "android-7f3a9c1e" "13" false (mkManager init_used_ports ∅)
           _ (mkInfo "c0ffee" "android-7f3a9c1e" 5999 5630 "13"
                "redroid/redroid:13.0.0-latest")).
  vm_compute. reflexivity.
Defined.

(** *** Capacity of the pools *)

Lemma pool_of_size ty : (size (pool_of ty) ≤ 100)%nat.
Proof.
  destruct (port_pool !! ty) as [pool|] eqn:Hpool.
  - assert (is_Some (port_pool !! ty)) as [-> | ->]%pool_keys by eauto;
      vm_compute; lia.
  - unfold pool_of. rewrite Hpool.
    change (size (∅ : gset Z) ≤ 100)%nat. rewrite size_empty. lia.
Qed.

Lemma pool_size_vnc_adb ty : ty ∈ ["vnc"; "adb"] → size (pool_of ty) = 100%nat.
Proof.
  intros [->|[->|[]%elem_of_nil]%elem_of_cons]%elem_of_cons; by vm_compute.
Qed.

Lemma NoDup_length_size (l : list Z) (X : gset Z) :
  NoDup l → (∀ x, x ∈ l → x ∈ X) → (length l ≤ size X)%nat.
Proof.
  intros Hnd Hin. rewrite <- (size_list_to_set (C := gset Z) l Hnd).
  apply subseteq_size. intros x Hx. apply Hin. by apply elem_of_list_to_set in Hx.
Qed.

(** X2. Each pool serves at most 100 ports at a time.  After every sequence
    of set-up, allocate and release operations, at most 100 ports of a pool
    are held and at most 100 are in use; and once 100 ports of the remote
    display or of the debug bridge pool are in use, every allocation from
    that pool raises [No available ... ports], whatever the generator
    draws. *)
Theorem pool_capacity (ops : list pool_op) (ty : string) :
  let s := run ops init_pools in
  (length (filter (λ h, h.1 = ty) (p_held s)) ≤ 100)%nat ∧
  (size (in_use ty (p_used s)) ≤ 100)%nat ∧
  (ty ∈ ["vnc"; "adb"] → size (in_use ty (p_used s)) = 100%nat →
   ∀ rng, _allocate_port rng ty (p_used s)
          = Raise (mkExn PyException ("No available " ++ ty ++ " ports"))).
Proof.
  intros s. destruct (pools_inv_run ops init_pools pools_inv_init) as [Hk Hs Hn Hh].
  fold s in Hk, Hs, Hn, Hh.
  assert (size (in_use ty (p_used s)) ≤ 100)%nat as Hsize.
  { etrans; [apply subseteq_size, Hs|apply pool_of_size]. }
  split; [|split; [done|]].
  - etrans; [|exact Hsize].
    rewrite <- (length_fmap snd). apply NoDup_length_size.
    + apply NoDup_fmap_2_strong; [|by apply NoDup_filter].
      intros [t1 p1] [t2 p2] [H1 _]%list_elem_of_filter [H2 _]%list_elem_of_filter Heq.
      simpl in *. congruence.
    + intros p ([t p'] & -> & [Ht Hin]%list_elem_of_filter)%list_elem_of_fmap.
      simpl in *. subst t. by apply Hh.
  - intros Hty Hfull rng.
    assert (in_use ty (p_used s) = pool_of ty) as Heq.
    { apply set_subseteq_size_eq; [apply Hs|]. rewrite Hfull.
      by rewrite pool_size_vnc_adb. }
    assert (available ty (p_used s) = ∅) as Hemp.
    { unfold available. rewrite Heq. apply set_eq. intros x.
      rewrite elem_of_difference. split; [by intros [? ?]|by intros ?%not_elem_of_empty]. }
    assert (is_Some (port_pool !! ty)) as Hpool by (apply pool_keys; set_solver).
    destruct (Hk ty Hpool) as [used Hu].
    pose proof (allocate_empty rng ty (p_used s) Hemp) as Hno.
    destruct (_allocate_port rng ty (p_used s)) as [[p u']|x] eqn:Ha; [done|].
    f_equal. by eapply allocate_Raise.
Qed.

(** *** Failures before both ports are reserved *)

(** X3. When [create_container] fails before both ports are reserved, its
    handler trips over the port variable that was never assigned: for an
    unsupported Android version, and when no remote-display port is
    available, the caller gets [UnboundLocalError] for [vnc_port] and the
    manager is unchanged; when no debug-bridge port is available the
    remote-display port is released again (the in-use sets are as before)
    and the caller gets [UnboundLocalError] for [adb_port].  In none of
    these cases does the caller see the original message. *)
Theorem create_container_early_failure (env : create_env) (name ver : string)
    (net : bool) (m : manager) :
  match redroid_images !! ver,
        _allocate_port (rng_vnc env) "vnc" (used_ports m) with
  | None, _ | Some _, Raise _ =>
      create_container env name ver net m
      = (Raise (mkExn PyUnboundLocalError
                  "local variable 'vnc_port' referenced before assignment"), m)
  | Some _, Ok (vnc, u1) =>
      match _allocate_port (rng_adb env) "adb" u1 with
      | Raise _ =>
          create_container env name ver net m
          = (Raise (mkExn PyUnboundLocalError
                      "local variable 'adb_port' referenced before assignment"), m)
      | Ok _ => True
      end
  end.
Proof.
  unfold create_container, create_container_try, create_container_except.
  destruct (redroid_images !! ver) as [image|]; [|done].
  destruct (_allocate_port (rng_vnc env) "vnc" (used_ports m)) as [[v u1]|x] eqn:Hv;
    [|done].
  destruct (_allocate_port (rng_adb env) "adb" u1) as [[a u2]|x]; [done|].
  simpl. rewrite (release_after_allocate _ _ _ _ _ Hv). simpl. by destruct m.
Qed.

End RedroidManagerMore.

(** ** The lifecycle service, request after request *)

Section LifecycleMore.
Import Lifecycle Examples.

#[local] Arguments start_container : simpl never.
#[local] Arguments stop_container : simpl never.
#[local] Arguments remove_container : simpl never.

Lemma allocate_grows rng ty u p u1 ty' :
  RedroidManager._allocate_port rng ty u = Ok (p, u1) →
  RedroidManager.in_use ty' u ⊆ RedroidManager.in_use ty' u1.
Proof.
  intros (pool & used0 & _ & Hu & _ & _ & ->)%allocate_Ok.
  rewrite in_use_insert. case_decide as Hd; [subst ty'|done].
  unfold RedroidManager.in_use. rewrite Hu. simpl. set_solver.
Qed.

(** [create_container] leaves the in-use sets as they were or larger. *)
Lemma create_container_grows env name ver net m ty :
  RedroidManager.in_use ty (RedroidManager.used_ports m) ⊆
  RedroidManager.in_use ty
    (RedroidManager.used_ports (RedroidManager.create_container env name ver net m).2).
Proof.
  destruct (RedroidManager.create_container env name ver net m) as [[info|x] m'] eqn:Hc.
  - apply create_container_Ok in Hc as (image & u1 & _ & Hv & Ha & _). simpl.
    etrans; [by eapply allocate_grows|by eapply allocate_grows].
  - simpl. revert Hc.
    unfold RedroidManager.create_container, RedroidManager.create_container_try,
      RedroidManager.create_container_except.
    destruct (RedroidManager.redroid_images !! ver) as [image|];
      [|by intros [= _ <-]].
    destruct (RedroidManager._allocate_port (RedroidManager.rng_vnc env) "vnc" _)
      as [[v u1]|y] eqn:Hv; [|by intros [= _ <-]].
    destruct (RedroidManager._allocate_port (RedroidManager.rng_adb env) "adb" u1)
      as [[a u2]|y] eqn:Ha.
    2:{ simpl. rewrite (release_after_allocate _ _ _ _ _ Hv). simpl.
        by intros [= _ <-]. }
    destruct (release_both_after_allocate _ _ _ _ _ _ _ Hv Ha)
      as [(u' & Hrv & Hra) _].
    assert (∀ y l, l = RedroidManager.mkLocals (Some v) (Some a) →
      RedroidManager.create_container_except y l
        (RedroidManager.mkManager u2 (RedroidManager.containers m)) = (Raise x, m') →
      RedroidManager.used_ports m' = RedroidManager.used_ports m) as Hroll.
    { intros y l ->. unfold RedroidManager.create_container_except. simpl.
      rewrite Hrv. simpl. rewrite Hra. by intros [= _ <-]. }
    fold (RedroidManager.create_container_except).
    destruct (RedroidManager.build_environment env) as [[]|y];
      [|by intros ->%(Hroll _ _ eq_refl)].
    destruct (RedroidManager.makedirs env) as [[]|y];
      [|by intros ->%(Hroll _ _ eq_refl)].
    destruct (RedroidManager.build_config env) as [[]|y];
      [|by intros ->%(Hroll _ _ eq_refl)].
    destruct (RedroidManager.docker_create env) as [cid|y];
      [done|by intros ->%(Hroll _ _ eq_refl)].
Qed.

(** The background task reaches the pools only through
    [create_container]. *)
Lemma create_container_async_redroid e id name ver net loc w :
  RedroidManager.used_ports (redroid (create_container_async e id name ver net loc w).2)
  = RedroidManager.used_ports (redroid w) ∨
  RedroidManager.used_ports (redroid (create_container_async e id name ver net loc w).2)
  = RedroidManager.used_ports
      (RedroidManager.create_container (create e) name ver net (redroid w)).2.
Proof.
  unfold create_container_async, create_container_async_try, create_container_async_except.
  destruct (db w !! id) as [instance|] eqn:Hrow; simpl.
  2:{ rewrite Hrow. by left. }
  destruct (RedroidManager.create_container _ _ _ _ _) as [[info|x] m]; simpl.
  2:{ rewrite lookup_insert_eq. by right. }
  destruct (configure_instance e) as [[]|x]; simpl.
  2:{ rewrite lookup_insert_eq. by right. }
  set (w1 := log _ (set_redroid m (log _ (set_db _ w)))).
  destruct (start_container_frame e
              (Some (RedroidManager.info_container_id info)) w1) as (Hdb & _ & _ & Hu).
  assert (db w1 !! id = Some (set_status "configuring" instance)) as Hw1.
  { subst w1. simpl. by rewrite lookup_insert_eq. }
  right. destruct loc; simpl.
  - destruct (location_post e) as [[]|x]; simpl; rewrite Hdb, Hw1; simpl;
      by rewrite Hu.
  - rewrite Hdb, Hw1. simpl. by rewrite Hu.
Qed.

Lemma start_instance_used_ports e id w :
  RedroidManager.used_ports (redroid (start_instance e id w).2)
  = RedroidManager.used_ports (redroid w).
Proof.
  unfold start_instance. destruct (db w !! id) as [instance|]; [|done].
  case_decide; [done|]. simpl.
  by destruct (start_container_frame e (container_id instance) w) as (_ & _ & _ & ->).
Qed.

Lemma stop_instance_used_ports e id w :
  RedroidManager.used_ports (redroid (stop_instance e id w).2)
  = RedroidManager.used_ports (redroid w).
Proof.
  unfold stop_instance. destruct (db w !! id) as [instance|]; [|done]. simpl.
  by destruct (stop_container_frame e (container_id instance) w) as (_ & _ & _ & ->).
Qed.

Lemma restart_instance_used_ports e id w :
  RedroidManager.used_ports (redroid (restart_instance e id w).2)
  = RedroidManager.used_ports (redroid w).
Proof.
  unfold restart_instance.
  pose proof (stop_instance_used_ports e id w) as Hs.
  destruct (stop_instance e id w) as [[r|x] w1]; simpl in *; [|done].
  pose proof (start_instance_used_ports e id (sleep 2 w1)) as Hst.
  destruct (start_instance e id (sleep 2 w1)) as [[r'|x] w2]; simpl in *; congruence.
Qed.

(** The rows after a sweep, and what the sweep leaves alone. *)
Lemma check_instance_health_lookup check w id :
  db (check_instance_health check w) !! id =
    match db w !! id with
    | Some instance =>
        if decide (status instance = "running")
        then Some (sweep_row check (now w) instance) else Some instance
    | None => None
    end.
Proof.
  destruct (sweep_loop check
              (filter (λ kv, status kv.2 = "running") (map_to_list (db w)))
              w (running_rows_NoDup (db w))) as (_ & _ & _ & Hdb).
  etrans; [apply Hdb|]. rewrite running_rows_lookup.
  destruct (db w !! id) as [instance|]; [|done]. by case_decide.
Qed.

Lemma check_instance_health_redroid check w :
  redroid (check_instance_health check w) = redroid w.
Proof.
  by destruct (sweep_loop check
              (filter (λ kv, status kv.2 = "running") (map_to_list (db w)))
              w (running_rows_NoDup (db w))) as (_ & Hr & _).
Qed.

(** X4. No request of the lifecycle service ever gives a port back to its
    pool: along every sequence of provisioning tasks, starts, stops,
    restarts, deletions and health sweeps, a port that is in use stays in
    use. *)
Theorem ports_never_released (rs : list request) (w : world) (ty : string) :
  RedroidManager.in_use ty (RedroidManager.used_ports (redroid w)) ⊆
  RedroidManager.in_use ty (RedroidManager.used_ports (redroid (serve_all rs w))).
Proof.
  revert w. induction rs as [|r rs IH]; intros w; [done|].
  simpl. etrans; [|apply IH].
  destruct r as [e id name ver net loc|e id|e id|e id|e id|e]; simpl.
  - destruct (create_container_async_redroid e id name ver net loc w) as [-> | ->];
      [done|apply create_container_grows].
  - by rewrite start_instance_used_ports.
  - by rewrite stop_instance_used_ports.
  - by rewrite restart_instance_used_ports.
  - by rewrite delete_instance_used_ports.
  - unfold check_instance_health_service. by rewrite check_instance_health_redroid.
Qed.

(** *** Starting an instance that has no container *)

Lemma start_container_missing e cid w :
  get_container cid w = None →
  start_container e cid w = (false, log (OrchStart cid) w).
Proof.
  unfold start_container, get_container. intros Hget.
  destruct cid as [c|]; simpl in *; [by rewrite Hget|done].
Qed.

(** X5. [start_instance] does not look at the orchestrator's answer.  For
    an instance that is not running and whose container the daemon does not
    have (so [start_container] answers [False]), the request still answers
    [started] and marks the row [running]; the next health sweep then finds
    no container and marks the row [failed]. *)
Theorem start_without_container (e e' : env) (id : string) (w : world)
    (instance : AndroidInstance) :
  db w !! id = Some instance → status instance ≠ "running" →
  get_container (container_id instance) w = None →
  let r := start_instance e id w in
  let w' := check_instance_health_service e' r.2 in
  (start_container e (container_id instance) w).1 = false ∧
  r.1 = Ok "started" ∧
  status <$> db r.2 !! id = Some "running" ∧
  status <$> db w' !! id = Some "failed" ∧
  error_message <$> db w' !! id = Some (Some "Container health check failed").
Proof.
  intros Hrow Hst Hget r w'.
  assert (r = (Ok "started",
               set_db (<[id := set_last_heartbeat (now w) (set_started_at (now w)
                                 (set_status "running" instance))]> (db w))
                 (log (OrchStart (container_id instance)) w))) as Hr.
  { subst r. unfold start_instance. rewrite Hrow, decide_False by done.
    by rewrite (start_container_missing _ _ _ Hget). }
  split; [by rewrite (start_container_missing _ _ _ Hget)|].
  subst w'. rewrite Hr. simpl. split; [done|].
  rewrite lookup_insert_eq. split; [done|].
  unfold check_instance_health_service. rewrite check_instance_health_lookup. simpl.
  rewrite lookup_insert_eq. simpl.
  unfold sweep_row, check_container_health. simpl.
  unfold get_container in Hget.
  destruct (container_id instance) as [c|]; simpl in Hget; [rewrite Hget|]; done.
Qed.

(** The instance whose provisioning failed has no container on its row. *)
Lemma start_without_container_witness :
  let r := start_instance fair_weather "7f3a9c1e-0000" half_provisioned in
  let w' := check_instance_health_service fair_weather r.2 in
  (start_container fair_weather None half_provisioned).1 = false ∧
  r.1 = Ok "started" ∧
  status <$> db r.2 !! "7f3a9c1e-0000" = Some "running" ∧
  status <$> db w' !! "7f3a9c1e-0000" = Some "failed" ∧
  error_message <$> db w' !! "7f3a9c1e-0000"
    = Some (Some "Container health check failed").
Proof.
  apply (start_without_container fair_weather fair_weather "7f3a9c1e-0000"
           half_provisioned
           (set_error_message "Android failed to become ready in android-7f3a9c1e"
              (set_status "failed" (set_status "configuring" pending)))).
  - vm_compute. reflexivity.
  - vm_compute. discriminate.
  - vm_compute. reflexivity.
Defined.

(** *** Deleting twice *)

(** X6. [delete_instance] is not idempotent and reports a failure of the
    cache after the fact.  For an instance that has its row: the row is gone
    after the call whatever the call answers; when the cache cannot be
    reached the call answers with status 500 although the row is deleted;
    and a second deletion of the same id answers status 500 with the text
    of the 404 inside, without changing anything. *)
Theorem delete_instance_twice (e e' : env) (id : string) (w : world)
    (instance : AndroidInstance) :
  db w !! id = Some instance →
  let r := delete_instance e id w in
  db r.2 !! id = None ∧
  r.1 = match redis_delete e with
        | Ok _ => Ok "deleted"
        | Raise x =>
            Raise (http_exception "500" ("Failed to delete instance: " ++ exn_str x))
        end ∧
  delete_instance e' id r.2
  = (Raise (http_exception "500"
              "Failed to delete instance: 404: Instance not found"), r.2).
Proof.
  intros Hrow r.
  assert (db r.2 !! id = None) as Hgone.
  { subst r. unfold delete_instance. rewrite Hrow.
    destruct (container_id instance) as [cid|].
    - destruct (remove_container_frame e (Some cid) w) as (Hdb & _).
      destruct (redis_delete e); simpl; by rewrite lookup_delete_eq.
    - destruct (redis_delete e); simpl; by rewrite lookup_delete_eq. }
  split; [done|]. split.
  - subst r. unfold delete_instance. rewrite Hrow. by destruct (redis_delete e).
  - unfold delete_instance at 1. by rewrite Hgone.
Qed.

Lemma delete_instance_twice_witness :
  let r := delete_instance fair_weather "7f3a9c1e-0000" provisioned in
  db r.2 !! "7f3a9c1e-0000" = None ∧
  r.1 = match redis_delete fair_weather with
        | Ok _ => Ok "deleted"
        | Raise x =>
            Raise (http_exception "500" ("Failed to delete instance: " ++ exn_str x))
        end ∧
  delete_instance fair_weather "7f3a9c1e-0000" r.2
  = (Raise (http_exception "500"
              "Failed to delete instance: 404: Instance not found"), r.2).
Proof.
  apply (delete_instance_twice fair_weather fair_weather "7f3a9c1e-0000" provisioned
           (set_last_heartbeat 1010 (set_started_at 1010 (set_status "running"
              (set_container "c0ffee" 5999 5630 pending))))).
  vm_compute. reflexivity.
Defined.

(** *** Provisioning an unsupported version *)

(** X7. Provisioning with an Android version the manager has no image for
    ends in [failed], but the message recorded on the row is that of the
    handler's [UnboundLocalError], not [Unsupported Android version]; no
    port is reserved and no container is created. *)
Theorem provision_unsupported_version (e : env) (id name ver : string)
    (net loc : bool) (w : world) (instance : AndroidInstance) :
  db w !! id = Some instance →
  RedroidManager.redroid_images !! ver = None →
  let r := create_container_async e id name ver net loc w in
  r.1 = Ok () ∧
  db r.2 !! id =
    Some (set_error_message "local variable 'vnc_port' referenced before assignment"
            (set_status "failed" (set_status "configuring" instance))) ∧
  redroid r.2 = redroid w.
Proof.
  intros Hrow Himg r. subst r.
  unfold create_container_async, create_container_async_try,
    create_container_async_except.
  rewrite Hrow. simpl.
  unfold RedroidManager.create_container, RedroidManager.create_container_try.
  rewrite Himg. simpl. rewrite lookup_insert_eq. simpl.
  by rewrite lookup_insert_eq.
Qed.

Lemma provision_unsupported_version_witness :
  let r := create_container_async fair_weather "7f3a9c1e-0000" "android-7f3a9c1e"
             "10" false false fresh_world in
  r.1 = Ok () ∧
  db r.2 !! "7f3a9c1e-0000" =
    Some (set_error_message "local variable 'vnc_port' referenced before assignment"
            (set_status "failed" (set_status "configuring" pending))) ∧
  redroid r.2 = redroid fresh_world.
Proof.
  apply (provision_unsupported_version fair_weather "7f3a9c1e-0000"
           "android-7f3a9c1e" "10" false false fresh_world pending).
  - vm_compute. reflexivity.
  - vm_compute. reflexivity.
Defined.

(** *** Cleaning up stopped containers *)

Lemma cleanup_visit_spec e acc k c :
  let b := cleanup_candidate c && negb (remove_fails e k) in
  let r := cleanup_visit e acc (k, c) in
  r.1 = acc.1 + (if b then 1 else 0) ∧
  db r.2 = db acc.2 ∧
  RedroidManager.used_ports (redroid r.2) = RedroidManager.used_ports (redroid acc.2) ∧
  RedroidManager.containers (redroid r.2)
  = if b then delete k (RedroidManager.containers (redroid acc.2))
    else RedroidManager.containers (redroid acc.2).
Proof.
  unfold cleanup_visit. simpl.
  destruct (cleanup_candidate c); simpl; [|by rewrite Z.add_0_r].
  destruct (remove_fails e k); simpl; [by rewrite Z.add_0_r|done].
Qed.

Lemma cleanup_loop e (l : list (string * container)) (acc : Z * world) :
  NoDup l.*1 →
  let r := foldl (cleanup_visit e) acc l in
  r.1 = acc.1 + Z.of_nat (length (filter
          (λ kv, cleanup_candidate kv.2 && negb (remove_fails e kv.1) = true) l)) ∧
  db r.2 = db acc.2 ∧
  RedroidManager.used_ports (redroid r.2) = RedroidManager.used_ports (redroid acc.2) ∧
  ∀ id, RedroidManager.containers (redroid r.2) !! id =
          match (list_to_map l : gmap string container) !! id with
          | Some c =>
              if cleanup_candidate c && negb (remove_fails e id) then None
              else RedroidManager.containers (redroid acc.2) !! id
          | None => RedroidManager.containers (redroid acc.2) !! id
          end.
Proof.
  revert acc. induction l as [|[k c] l IH]; intros acc Hnd r; subst r.
  { cbn [foldl]. split; [simpl; lia|done]. }
  rewrite fmap_cons in Hnd. apply NoDup_cons in Hnd as [Hk Hnd]. simpl in Hk.
  cbn [foldl].
  destruct (IH (cleanup_visit e acc (k, c)) Hnd) as (Hn & Hdb & Hu & Hc).
  destruct (cleanup_visit_spec e acc k c) as (Hn1 & Hdb1 & Hu1 & Hc1).
  rewrite filter_cons. cbn [fst snd].
  split; [|split; [congruence|split; [congruence|]]].
  - rewrite Hn, Hn1.
    destruct (cleanup_candidate c && negb (remove_fails e k)).
    + rewrite decide_True by done. simpl length. lia.
    + rewrite decide_False by done. lia.
  - intros id. rewrite Hc, Hc1. cbn [list_to_map foldr fst snd uncurry].
    destruct (decide (k = id)) as [->|Hne].
    + rewrite lookup_insert_eq, (not_elem_of_list_to_map_1 _ id Hk).
      destruct (cleanup_candidate c && negb (remove_fails e id));
        [by rewrite lookup_delete_eq|done].
    + rewrite lookup_insert_ne by done.
      destruct (cleanup_candidate c && negb (remove_fails e k));
        [by rewrite lookup_delete_ne|done].
Qed.

(** X8. [cleanup_stopped_containers] removes exactly the containers whose
    name starts with [android-], whose status is [exited] or [dead] and
    whose removal the daemon accepts; it answers their number.  Every other
    container (running ones, containers of other names, those the daemon
    refuses to remove) stays as it is, and neither the rows of the table
    nor the port pools are touched, so the rows and the ports of the removed
    containers remain.  When the daemon cannot list its containers the
    answer is 0 and nothing changes. *)
Theorem cleanup_stopped_containers_removes (e : env) (w : world) :
  let r := cleanup_stopped_containers e true w in
  (∀ id, RedroidManager.containers (redroid r.2) !! id =
           match RedroidManager.containers (redroid w) !! id with
           | Some c =>
               if String.prefix "android-" (c_name c) &&
                  bool_decide (c_status c ∈ ["exited"; "dead"]) &&
                  negb (remove_fails e id)
               then None else Some c
           | None => None
           end) ∧
  r.1 = Z.of_nat (length (filter
          (λ kv, cleanup_candidate kv.2 && negb (remove_fails e kv.1) = true)
          (map_to_list (RedroidManager.containers (redroid w))))) ∧
  db r.2 = db w ∧
  RedroidManager.used_ports (redroid r.2) = RedroidManager.used_ports (redroid w) ∧
  cleanup_stopped_containers e false w = (0, w).
Proof.
  intros r.
  destruct (cleanup_loop e (map_to_list (RedroidManager.containers (redroid w))) (0, w)
              (NoDup_fst_map_to_list _)) as (Hn & Hdb & Hu & Hc).
  change (foldl _ _ _) with r in Hn, Hdb, Hu, Hc.
  split; [|by rewrite Hn].
  intros id. rewrite Hc, list_to_map_to_list. simpl.
  by destruct (RedroidManager.containers (redroid w) !! id).
Qed.

End LifecycleMore.

(** ** The isolator: clean-up of all namespaces *)

Section IsolatorMore.
Import NetworkIsolator.
Context `{Host}.
#[local] Open Scope list_scope.
#[local] Arguments run_each : simpl never.
#[local] Arguments for_each_passing : simpl never.

(** [destroy_namespace] never adds a name to the registry. *)
Lemma destroy_namespace_shrinks namespace st :
  active_namespaces (destroy_namespace namespace st).2 ⊆ active_namespaces st.
Proof.
  unfold destroy_namespace, try_except. unfold bind at 1.
  destruct (cleanup_spec namespace st) as [Hok [Ha _]].
  destruct (_cleanup_namespace_iptables namespace st) as [[[]|x] st1];
    simpl in *; [|by rewrite Ha].
  unfold bind.
  set (steps := [(false, ["ip"; "link"; "delete"; ("veth-" ++ first8 namespace)%string]);
                 (false, ["ip"; "netns"; "delete"; namespace])]).
  assert (unchecked_calls_only st1 (run_each steps st1).2) as [Ha2 _].
  { apply run_each_unchecked. intros c a Hin. subst steps.
    repeat (apply elem_of_cons in Hin as [Hin|Hin]; [congruence|]).
    by apply elem_of_nil in Hin. }
  destruct (run_each steps st1) as [[[]|x] st2]; simpl in *.
  - rewrite Ha2, Ha. set_solver.
  - by rewrite Ha2, Ha.
Qed.

Lemma destroy_each_spec namespaces st :
  launches_program "ip" →
  (destroy_each namespaces st).1 = Ok () ∧
  active_namespaces (destroy_each namespaces st).2
  = active_namespaces st ∖ list_to_set namespaces.
Proof.
  intros Hip. revert st. induction namespaces as [|ns rest IH]; intros st; simpl.
  { split; [done|]. set_solver. }
  unfold bind.
  destruct (destroy_namespace_spec ns st Hip) as (Hr & Ha & _).
  destruct (destroy_namespace ns st) as [[b|x] st1]; simpl in *; [|done].
  destruct (IH st1) as [Hok Hact]. split; [done|].
  rewrite Hact, Ha. set_solver.
Qed.

Lemma destroy_each_shrinks namespaces st :
  active_namespaces (destroy_each namespaces st).2 ⊆ active_namespaces st.
Proof.
  revert st. induction namespaces as [|ns rest IH]; intros st; simpl; [done|].
  unfold bind. pose proof (destroy_namespace_shrinks ns st) as Hs.
  destruct (destroy_namespace ns st) as [[b|x] st1]; simpl in *; [|done].
  etrans; [apply IH|done].
Qed.

(** X9. [cleanup_all_namespaces] never adds a name to the registry, and on
    a machine that can launch [ip] it leaves the registry empty and answers
    the number of namespaces that were registered, whatever exit status the
    commands leave. *)
Theorem cleanup_all_namespaces_empties (st : isolator) :
  active_namespaces (cleanup_all_namespaces st).2 ⊆ active_namespaces st ∧
  (launches_program "ip" →
   (cleanup_all_namespaces st).1 = Ok (size (active_namespaces st)) ∧
   active_namespaces (cleanup_all_namespaces st).2 = ∅).
Proof.
  unfold cleanup_all_namespaces, bind, ret. split.
  - pose proof (destroy_each_shrinks (elements (active_namespaces st)) st) as Hs.
    by destruct (destroy_each _ st) as [[[]|x] st1].
  - intros Hip.
    destruct (destroy_each_spec (elements (active_namespaces st)) st Hip) as [Hok Ha].
    destruct (destroy_each _ st) as [[[]|x] st1]; simpl in *; [|done].
    split; [done|]. rewrite Ha. apply set_eq. intros x.
    rewrite elem_of_difference, elem_of_list_to_set, elem_of_elements.
    split; [by intros [? ?]|by intros ?%not_elem_of_empty].
Qed.

End IsolatorMore.

(** ** The isolator on the modelled machine, continued *)

Section LinuxMore.
Import NetworkIsolator Linux Examples.
#[local] Open Scope list_scope.
#[local] Arguments iptables : simpl never.
#[local] Arguments ip : simpl never.
#[local] Arguments linux_execute : simpl never.

(** Both namespaces of [two_namespaces] are cleaned up. *)
Lemma cleanup_all_namespaces_empties_witness :
  (cleanup_all_namespaces (H := linux) two_namespaces).1
    = Ok (size (active_namespaces two_namespaces)) ∧
  active_namespaces (cleanup_all_namespaces (H := linux) two_namespaces).2 = ∅.
Proof.
  apply (proj2 (cleanup_all_namespaces_empties (H := linux) two_namespaces)).
  apply linux_launches_ip.
Defined.

(** *** The default rules *)

Lemma setup_default_iptables_linux (st : isolator (H := linux)) :
  ∃ rs, _setup_default_iptables (H := linux) st
        = (Ok (),
           mkIsolator (H := linux) (active_namespaces st)
             (foldl (λ k argv, (linux_execute argv k).2) (host st)
                default_iptables_commands) rs).
Proof.
  unfold _setup_default_iptables, default_iptables_commands.
  cbn [for_each_passing foldl].
  rewrite !linux_execute_iptables.
  unfold bind, ret, try_except.
  repeat (rewrite run_linux_iptables;
          cbv beta iota zeta; cbn [fst snd active_namespaces host runs]).
  eexists. reflexivity.
Qed.

(** X10. [_setup_default_iptables] on the modelled machine: the three
    default FORWARD rules are appended behind whatever the chain holds (so
    each further call adds them once more), the other chains of the filter
    table are left alone, and the whole nat table is emptied before the
    single default POSTROUTING rule is installed, so every other chain of
    the nat table ends empty. *)
Theorem setup_default_iptables_chains (st : isolator (H := linux)) :
  has_chains (host st) →
  let st' := (_setup_default_iptables (H := linux) st).2 in
  let st'' := (_setup_default_iptables (H := linux) st').2 in
  chain "filter" "FORWARD" (host st')
    = chain "filter" "FORWARD" (host st) ++ default_forward ∧
  chain "filter" "FORWARD" (host st'')
    = chain "filter" "FORWARD" (host st) ++ default_forward ++ default_forward ∧
  chain "nat" "POSTROUTING" (host st') = default_postrouting ∧
  (∀ name, name ≠ "POSTROUTING"%string → chain "nat" name (host st') = []) ∧
  (∀ name, name ≠ "FORWARD"%string →
     chain "filter" name (host st') = chain "filter" name (host st)).
Proof.
  assert (∀ st0 : isolator (H := linux), has_chains (host st0) →
    let st1 := (_setup_default_iptables (H := linux) st0).2 in
    has_chains (host st1) ∧
    chain "filter" "FORWARD" (host st1)
      = chain "filter" "FORWARD" (host st0) ++ default_forward ∧
    chain "nat" "POSTROUTING" (host st1) = default_postrouting ∧
    (∀ name, name ≠ "POSTROUTING"%string → chain "nat" name (host st1) = []) ∧
    (∀ name, name ≠ "FORWARD"%string →
       chain "filter" name (host st1) = chain "filter" name (host st0))) as Hone.
  { intros st0 [[rf Hrf] [rp Hrp]].
    destruct (tables (host st0) !! "filter") as [f|] eqn:Hf; [simpl in Hrf|done].
    destruct (tables (host st0) !! "nat") as [n|] eqn:Hn; [simpl in Hrp|done].
    destruct (setup_default_iptables_linux st0) as [rs ->]. cbn [snd host].
    unfold default_iptables_commands. cbn [foldl].
    rewrite !linux_execute_iptables.
    unfold has_chains, chain.
    rewrite ?iptables_nat, ?(iptables_filter "-A") by done.
    cbn [fst snd tables].
    erewrite (iptables_flush_table "nat"); [|done].
    cbn [snd].
    erewrite (iptables_append "nat" "POSTROUTING");
      [|by rewrite lookup_insert_eq
       |by rewrite lookup_fmap, Hrp].
    cbn [snd].
    erewrite (iptables_append "filter" "FORWARD"
                ["-i"; "docker0"; "-o"; "docker0"; "-j"; "ACCEPT"]);
      [|by rewrite !(lookup_insert_ne _ "nat" "filter") by done
       |done].
    cbn [snd].
    erewrite (iptables_append "filter" "FORWARD" ["-s"; "172.20.0.0/16"; "-j"; "ACCEPT"]);
      [|by rewrite lookup_insert_eq|by rewrite lookup_insert_eq].
    cbn [snd].
    erewrite (iptables_append "filter" "FORWARD" ["-d"; "172.20.0.0/16"; "-j"; "ACCEPT"]);
      [|by rewrite lookup_insert_eq|by rewrite lookup_insert_eq].
    cbn [snd].
    rewrite !lookup_insert_eq.
    rewrite !(lookup_insert_ne _ "filter" "nat") by done.
    rewrite !lookup_insert_eq. simpl. rewrite !lookup_insert_eq. simpl.
    rewrite Hf. simpl. rewrite Hrf. simpl.
    split; [split; eauto|]. split; [by rewrite <- !app_assoc|]. split; [done|].
    split.
    - intros name Hne. rewrite lookup_insert_ne by done. rewrite lookup_fmap.
      by destruct (n !! name).
    - intros name Hne. by rewrite !lookup_insert_ne by done. }
  intros Hch st' st''.
  destruct (Hone st Hch) as (Hch' & Hf1 & Hp1 & Hn1 & Ho1).
  destruct (Hone st' Hch') as (_ & Hf2 & _).
  fold st' in Hf1, Hp1, Hn1, Ho1. fold st'' in Hf2.
  split; [done|]. split; [|done].
  rewrite Hf2, Hf1. by rewrite <- app_assoc.
Qed.

Lemma setup_default_iptables_chains_witness :
  let st' := (_setup_default_iptables (H := linux) two_namespaces).2 in
  let st'' := (_setup_default_iptables (H := linux) st').2 in
  chain "filter" "FORWARD" (host st')
    = chain "filter" "FORWARD" (host two_namespaces) ++ default_forward ∧
  chain "filter" "FORWARD" (host st'')
    = chain "filter" "FORWARD" (host two_namespaces) ++ default_forward ++ default_forward ∧
  chain "nat" "POSTROUTING" (host st') = default_postrouting ∧
  (∀ name, name ≠ "POSTROUTING"%string → chain "nat" name (host st') = []) ∧
  (∀ name, name ≠ "FORWARD"%string →
     chain "filter" name (host st') = chain "filter" name (host two_namespaces)).
Proof.
  apply (setup_default_iptables_chains two_namespaces).
  apply two_namespaces_has_chains.
Defined.

(** *** Names that are taken *)

Lemma run_linux_ip_checked args (st : isolator (H := linux)) :
  run (H := linux) true ("ip" :: args) st
  = (if bool_decide ((ip args (host st)).1 ≠ 0)
     then Raise (called_process_error ("ip" :: args) (ip args (host st)).1)
     else Ok (ip args (host st)).1,
     mkIsolator (H := linux) (active_namespaces st) (ip args (host st)).2
       (runs st ++ [("ip" :: args, true, Completed (ip args (host st)).1)])).
Proof.
  unfold run. simpl. unfold linux_execute. simpl.
  destruct (ip args (host st)) as [rc k]. simpl. by destruct (bool_decide (rc ≠ 0)).
Qed.

Lemma iptables_names args k :
  netns (iptables args k).2 = netns k ∧ links (iptables args k).2 = links k.
Proof.
  unfold iptables. destruct (table_and_rest args) as [t op].
  by destruct (iptables_in t op (tables k)).
Qed.

Lemma ip_link_delete name k :
  netns (ip ["link"; "delete"; name] k).2 = netns k ∧
  links (ip ["link"; "delete"; name] k).2 = links k ∖ {[name]}.
Proof.
  unfold ip. simpl. case_decide; simpl; [done|]. split; [done|]. set_solver.
Qed.

Lemma ip_netns_delete name k :
  netns (ip ["netns"; "delete"; name] k).2 = netns k ∖ {[name]} ∧
  links (ip ["netns"; "delete"; name] k).2 = links k.
Proof.
  unfold ip. simpl. case_decide; simpl; [done|]. split; [|done]. set_solver.
Qed.

(** The names on the machine after the commands of [destroy_namespace]. *)
Lemma machine_after_destroy_names namespace k :
  netns (machine_after_destroy namespace k) = netns k ∖ {[namespace]} ∧
  links (machine_after_destroy namespace k)
  = links k ∖ {[("veth-" ++ first8 namespace)%string]}.
Proof.
  unfold machine_after_destroy, default_iptables_commands.
  cbn [app foldl]. rewrite !linux_execute_iptables, !linux_execute_ip.
  destruct (ip_netns_delete namespace
    (ip ["link"; "delete"; ("veth-" ++ first8 namespace)%string]
       (iptables ["-A"; "FORWARD"; "-d"; "172.20.0.0/16"; "-j"; "ACCEPT"]
       (iptables ["-A"; "FORWARD"; "-s"; "172.20.0.0/16"; "-j"; "ACCEPT"]
       (iptables ["-A"; "FORWARD"; "-i"; "docker0"; "-o"; "docker0"; "-j"; "ACCEPT"]
       (iptables ["-t"; "nat"; "-A"; "POSTROUTING"; "-s"; "172.20.0.0/16"; "-j";
                  "MASQUERADE"]
       (iptables ["-t"; "nat"; "-F"]
       (iptables ["-t"; "nat"; "-F"; "POSTROUTING"]
       (iptables ["-F"; "FORWARD"] k).2).2).2).2).2).2).2).2) as [-> ->].
  destruct (ip_link_delete ("veth-" ++ first8 namespace)%string
       (iptables ["-A"; "FORWARD"; "-d"; "172.20.0.0/16"; "-j"; "ACCEPT"]
       (iptables ["-A"; "FORWARD"; "-s"; "172.20.0.0/16"; "-j"; "ACCEPT"]
       (iptables ["-A"; "FORWARD"; "-i"; "docker0"; "-o"; "docker0"; "-j"; "ACCEPT"]
       (iptables ["-t"; "nat"; "-A"; "POSTROUTING"; "-s"; "172.20.0.0/16"; "-j";
                  "MASQUERADE"]
       (iptables ["-t"; "nat"; "-F"]
       (iptables ["-t"; "nat"; "-F"; "POSTROUTING"]
       (iptables ["-F"; "FORWARD"] k).2).2).2).2).2).2).2) as [-> ->].
  repeat match goal with
         | |- context [netns (iptables ?a ?k0).2] =>
             rewrite (proj1 (iptables_names a k0))
         | |- context [links (iptables ?a ?k0).2] =>
             rewrite (proj2 (iptables_names a k0))
         end.
  done.
Qed.

(** A failure of a checked command hands over to [destroy_namespace]. *)
Lemma create_namespace_linux_failed namespace ip_address x
    (st st1 : isolator (H := linux)) :
  create_namespace_try (H := linux) namespace ip_address st = (Raise x, st1) →
  is_called_process_error x = true →
  ∃ rs, create_namespace (H := linux) namespace ip_address st
        = (Ok false,
           mkIsolator (H := linux) (active_namespaces st1 ∖ {[namespace]})
             (machine_after_destroy namespace (host st1)) rs).
Proof.
  intros Htry Hcpe. unfold create_namespace, try_except. rewrite Htry, Hcpe.
  unfold bind, ret. destruct (destroy_namespace_linux namespace st1) as [rs ->].
  eauto.
Qed.

(** X11. Creating a namespace under a name that exists on the machine
    destroys the existing one: [ip netns add] fails, the clean-up of
    [create_namespace] runs, and afterwards the call has answered [False],
    the name is out of the registry, and the namespace and its host link
    are deleted from the machine. *)
Theorem create_namespace_existing_name (namespace ip_address : string)
    (st : isolator (H := linux)) :
  namespace ∈ netns (host st) →
  let r := create_namespace (H := linux) namespace ip_address st in
  r.1 = Ok false ∧
  active_namespaces r.2 = active_namespaces st ∖ {[namespace]} ∧
  netns (host r.2) = netns (host st) ∖ {[namespace]} ∧
  links (host r.2) = links (host st) ∖ {[("veth-" ++ first8 namespace)%string]}.
Proof.
  intros Hin r.
  assert (ip ["netns"; "add"; namespace] (host st) = (1, host st)) as Hadd.
  { unfold ip. simpl. by rewrite decide_True. }
  destruct (create_namespace_linux_failed namespace ip_address
              (called_process_error ["ip"; "netns"; "add"; namespace] 1) st
              (mkIsolator (H := linux) (active_namespaces st) (host st)
                 (runs st ++ [(["ip"; "netns"; "add"; namespace], true, Completed 1)])))
    as [rs Hr]; [|done|].
  { unfold create_namespace_try, create_commands. rewrite run_each_cons.
    unfold bind. rewrite run_linux_ip_checked, Hadd. done. }
  subst r. rewrite Hr. cbn [fst snd active_namespaces host runs].
  destruct (machine_after_destroy_names namespace (host st)) as [-> ->]. done.
Qed.

(** Creating [netns-a] a second time. *)
Lemma create_namespace_existing_name_witness :
  let r := create_namespace (H := linux) "netns-a" "172.20.3.4" two_namespaces in
  r.1 = Ok false ∧
  active_namespaces r.2 = active_namespaces two_namespaces ∖ {[ "netns-a"%string ]} ∧
  netns (host r.2) = netns (host two_namespaces) ∖ {[ "netns-a"%string ]} ∧
  links (host r.2)
  = links (host two_namespaces) ∖ {[("veth-" ++ first8 "netns-a")%string]}.
Proof.
  apply (create_namespace_existing_name "netns-a" "172.20.3.4" two_namespaces).
  vm_compute. reflexivity.
Defined.

(** *** Names too long for a link *)

Lemma substring_0_length (n : nat) (s : string) :
  (n ≤ String.length s)%nat → String.length (String.substring 0 n s) = n.
Proof.
  revert s. induction n as [|n IH]; intros [|c s] Hn; simpl in *; try lia.
  f_equal. apply IH. lia.
Qed.

Lemma string_length_append (s1 s2 : string) :
  String.length (s1 ++ s2) = (String.length s1 + String.length s2)%nat.
Proof.
  induction s1 as [|c s1 IH]; [reflexivity|].
  change (S (String.length (s1 ++ s2)) = S (String.length s1 + String.length s2)).
  by rewrite IH.
Qed.

Lemma long_name_peer_refused (namespace : string) :
  (8 ≤ String.length namespace)%nat →
  valid_ifname ("veth-ns-" ++ first8 namespace) = false.
Proof.
  intros Hlen. unfold valid_ifname, IFNAMSIZ, first8.
  rewrite bool_decide_eq_false_2; [done|].
  rewrite string_length_append, substring_0_length by done. simpl. lia.
Qed.

Lemma ip_link_add_long_name (namespace : string) (k : kernel) :
  (8 ≤ String.length namespace)%nat →
  ip ["link"; "add"; ("veth-" ++ first8 namespace)%string; "type"; "veth";
      "peer"; "name"; ("veth-ns-" ++ first8 namespace)%string] k = (255, k).
Proof.
  intros Hlen. unfold ip. simpl.
  by rewrite (long_name_peer_refused namespace Hlen), andb_false_r.
Qed.

(** X12. On the machine, [create_namespace] cannot succeed for a name of
    eight or more characters: the peer link it asks for, [veth-ns-] and the
    first eight characters of the name, has sixteen characters, one more
    than a link name may have, so the checked [ip link add] fails if
    [ip netns add] has not failed before.  The call answers [False] and the
    clean-up runs: afterwards the name is not registered, and a namespace
    and a host link that existed under these names are deleted. *)
Theorem create_namespace_long_name (namespace ip_address : string)
    (st : isolator (H := linux)) :
  (8 ≤ String.length namespace)%nat →
  let r := create_namespace (H := linux) namespace ip_address st in
  r.1 = Ok false ∧
  active_namespaces r.2 = active_namespaces st ∖ {[namespace]} ∧
  netns (host r.2) = netns (host st) ∖ {[namespace]} ∧
  links (host r.2) = links (host st) ∖ {[("veth-" ++ first8 namespace)%string]}.
Proof.
  intros Hlen r.
  destruct (decide (namespace ∈ netns (host st))) as [Hin|Hfresh].
  - assert (ip ["netns"; "add"; namespace] (host st) = (1, host st)) as Hadd.
    { unfold ip. simpl. by rewrite decide_True. }
    destruct (create_namespace_linux_failed namespace ip_address
                (called_process_error ["ip"; "netns"; "add"; namespace] 1) st
                (mkIsolator (H := linux) (active_namespaces st) (host st)
                   (runs st ++ [(["ip"; "netns"; "add"; namespace], true, Completed 1)])))
      as [rs Hr]; [|done|].
    { unfold create_namespace_try, create_commands. rewrite run_each_cons.
      unfold bind. rewrite run_linux_ip_checked, Hadd. done. }
    subst r. rewrite Hr. cbn [fst snd active_namespaces host runs].
    destruct (machine_after_destroy_names namespace (host st)) as [-> ->]. done.
  - set (k1 := mkKernel ({[namespace]} ∪ netns (host st)) (links (host st))
                 (tables (host st))).
    assert (ip ["netns"; "add"; namespace] (host st) = (0, k1)) as Hadd.
    { unfold ip. simpl. by rewrite decide_False. }
    pose proof (ip_link_add_long_name namespace k1 Hlen) as Hlk.
    destruct (create_namespace_linux_failed namespace ip_address
                (called_process_error
                   ["ip"; "link"; "add"; ("veth-" ++ first8 namespace)%string; "type";
                    "veth"; "peer"; "name"; ("veth-ns-" ++ first8 namespace)%string] 255)
                st
                (mkIsolator (H := linux) (active_namespaces st) k1
                   ((runs st ++ [(["ip"; "netns"; "add"; namespace], true, Completed 0)])
                    ++ [(["ip"; "link"; "add"; ("veth-" ++ first8 namespace)%string;
                          "type"; "veth"; "peer"; "name";
                          ("veth-ns-" ++ first8 namespace)%string], true,
                         Completed 255)])))
      as [rs Hr]; [|done|].
    { unfold create_namespace_try, create_commands. rewrite !run_each_cons.
      unfold bind. rewrite run_linux_ip_checked, Hadd.
      cbn [fst snd bool_decide decide_rel]. simpl bool_decide. cbv beta iota.
      rewrite run_linux_ip_checked. cbn [host]. rewrite Hlk. done. }
    subst r. rewrite Hr. cbn [fst snd active_namespaces host runs].
    destruct (machine_after_destroy_names namespace k1) as [-> ->].
    subst k1. cbn [netns links].
    split; [done|]. split; [done|]. split; [set_solver|done].
Qed.

(** The namespace the network service asks for, [netns-] and the id of the
    instance, next to the two of [two_namespaces]. *)
Lemma create_namespace_long_name_witness :
  let r := create_namespace (H := linux) "netns-7f3a9c1e-0000" "172.20.3.4"
             two_namespaces in
  r.1 = Ok false ∧
  active_namespaces r.2
  = active_namespaces two_namespaces ∖ {[ "netns-7f3a9c1e-0000"%string ]} ∧
  netns (host r.2) = netns (host two_namespaces) ∖ {[ "netns-7f3a9c1e-0000"%string ]} ∧
  links (host r.2)
  = links (host two_namespaces) ∖ {[("veth-" ++ first8 "netns-7f3a9c1e-0000")%string]}.
Proof.
  apply (create_namespace_long_name "netns-7f3a9c1e-0000" "172.20.3.4" two_namespaces).
  simpl. lia.
Defined.

End LinuxMore.

(** ** The network service's address generator *)

Section NetworkManagerMore.
Import NetworkManager.

Lemma randint_range (lo hi : Z) (rng : nat) :
  (lo ≤ hi)%Z → (lo ≤ randint lo hi rng ≤ hi)%Z.
Proof.
  intros Hle. unfold randint.
  pose proof (Z.mod_pos_bound (Z.of_nat rng) (hi - lo + 1) ltac:(lia)). lia.
Qed.

Lemma ipv4_str_host (h : Z) :
  (0 ≤ h < 65536)%Z →
  ipv4_str (network_address + h) =
  "172.20." ++ pretty (h `div` 256) ++ "." ++ pretty (h `mod` 256).
Proof.
  intros Hh. unfold ipv4_str, network_address.
  assert ((172 * 16777216 + 20 * 65536 + h) `div` 16777216 `mod` 256 = 172) as ->
    by (Z.div_mod_to_equations; lia).
  assert ((172 * 16777216 + 20 * 65536 + h) `div` 65536 `mod` 256 = 20) as ->
    by (Z.div_mod_to_equations; lia).
  assert ((172 * 16777216 + 20 * 65536 + h) `div` 256 `mod` 256 = h `div` 256) as ->
    by (Z.div_mod_to_equations; lia).
  assert ((172 * 16777216 + 20 * 65536 + h) `mod` 256 = h `mod` 256) as ->
    by (Z.div_mod_to_equations; lia).
  reflexivity.
Qed.

Lemma forallb_range (P : Z → bool) (lo : Z) (n : nat) (z : Z) :
  forallb (λ k, P (lo + Z.of_nat k)) (seq 0 n) = true →
  (lo ≤ z < lo + Z.of_nat n)%Z → P z = true.
Proof.
  intros Hall Hz. rewrite forallb_forall in Hall.
  specialize (Hall (Z.to_nat (z - lo))).
  replace (lo + Z.of_nat (Z.to_nat (z - lo))) with z in Hall by lia.
  apply Hall, in_seq. lia.
Qed.

Lemma low_hosts_not_reserved (d : Z) :
  (100 ≤ d < 256)%Z →
  "172.20." ++ pretty 0 ++ "." ++ pretty d ∉ reserved_gateways.
Proof.
  intros Hd.
  pose proof (forallb_range
    (λ x, bool_decide ("172.20." ++ pretty 0 ++ "." ++ pretty x ∉ reserved_gateways))
    100 156 d) as Hall.
  cbv beta in Hall.
  eapply bool_decide_eq_true_1, Hall; [vm_compute; reflexivity | lia].
Qed.

Lemma pretty_no_leading_zero (c : Z) (r r' : string) :
  (1 ≤ c < 256)%Z → pretty c ++ r ≠ "0" ++ r'.
Proof.
  intros Hc.
  pose proof (forallb_range
    (λ x, match pretty x with String a _ => bool_decide (String a EmptyString ≠ "0") | _ => false end)
    1 255 c) as Hhead.
  cbv beta in Hhead.
  specialize (Hhead ltac:(vm_compute; reflexivity) ltac:(lia)).
  destruct (pretty c) as [|a s]; [discriminate|].
  apply bool_decide_eq_true in Hhead. intros Heq. apply Hhead.
  cbn in Heq. by injection Heq as -> _.
Qed.

Lemma subnet_prefix_inj (x y : string) :
  "172.20." ++ x = "172.20." ++ y → x = y.
Proof. intros Heq. cbv in Heq. by simplify_eq. Qed.

(** The reserved-address test of the loop never rejects a draw. *)
Lemma host_not_reserved (h : Z) :
  (100 ≤ h ≤ 65000)%Z → ipv4_str (network_address + h) ∉ reserved_gateways.
Proof.
  intros Hh. rewrite ipv4_str_host by lia.
  destruct (decide (h `div` 256 = 0)) as [Hc|Hc].
  - rewrite Hc. apply low_hosts_not_reserved.
    apply Z.div_small_iff in Hc; [|lia]. rewrite Z.mod_small; lia.
  - assert (1 ≤ h `div` 256 < 256)%Z as Hc'.
    { pose proof (Z.div_pos h 256). assert (h `div` 256 < 256)%Z by (apply Z.div_lt_upper_bound; lia). lia. }
    unfold reserved_gateways. intros Hin.
    apply elem_of_cons in Hin as [Heq|Hin];
      [|apply elem_of_cons in Hin as [Heq|Hin]; [|by apply elem_of_nil in Hin]].
    + apply (subnet_prefix_inj _ "0.1") in Heq.
      exact (pretty_no_leading_zero _ _ ".1" Hc' Heq).
    + apply (subnet_prefix_inj _ "0.2") in Heq.
      exact (pretty_no_leading_zero _ _ ".2" Hc' Heq).
Qed.

(** X13. [generate_private_ip] returns on the first turn of its loop,
    whatever the generator draws: the address is 172.20.c.d where
    256 * c + d is the drawn host part, between 100 and 65000, and the
    test against the two reserved gateway addresses never sends the
    loop round again. *)
Theorem generate_private_ip_first_draw (rng : nat) (rest : list nat) :
  let h := randint 100 65000 rng in
  (100 ≤ h ≤ 65000)%Z ∧
  generate_private_ip (rng :: rest) =
    Some ("172.20." ++ pretty (h `div` 256) ++ "." ++ pretty (h `mod` 256)).
Proof.
  intros h. pose proof (randint_range 100 65000 rng ltac:(lia)) as Hh.
  fold h in Hh. split; [done|].
  cbn [generate_private_ip]. fold h.
  rewrite decide_True by (by apply host_not_reserved).
  by rewrite ipv4_str_host by lia.
Qed.

End NetworkManagerMore.
